(** * Eva Calor climate platform: a shallow embedding of
      [homeassistant/components/evacalor/climate.py]

    The platform is a thin adapter between the host's climate entity
    interface and the [pyevacalor] SDK.  The embedding keeps the shape of
    the source: Python values are a small tagged universe, the SDK is an
    oracle answering each call with a new device handle or an exception,
    and every method of [EvaCalorHeatingDevice] is a computation in a
    state-and-exception monad over the pair (adapter object, world). *)

From Stdlib Require Import QArith Qreduction Qcanon.
From stdpp Require Import gmap strings list.

Local Open Scope Z_scope.
Local Open Scope string_scope.
Local Open Scope list_scope.


(** ** binary64 *)

(** A Python float: a finite number, given by the rational it denotes,
    an infinity or a NaN.  Every operation rounds its exact result to
    binary64 and returns it in lowest terms, whatever its operand; the
    type itself also holds the rationals that are no binary64 number.
    The two zeros are not told apart: they compare equal and the adapter
    never divides by one. *)
Inductive float64 : Type :=
  | Finite (q : Q)
  | Infinity (negative : bool)
  | NaN.

Coercion Finite : Q >-> float64.

Definition bit_length (n : Z) : Z :=
  if (n =? 0)%Z then 0 else Z.log2 (Z.abs n) + 1.

(** Whether the fraction [r], in lowest terms, is a binary64 number:
    [m * 2^e] with [|m| < 2^53] and [-1074 <= e <= 971]. *)
Definition representable64 (r : Q) : bool :=
  let n := Z.abs (Qnum r) in
  let d := Zpos (Qden r) in
  let j := Z.log2 d in
  ((d =? 2 ^ j)
   && (if j =? 0
       then (bit_length n <=? 1024)
            && ((bit_length n <=? 53)
                || (n mod 2 ^ (bit_length n - 53) =? 0))
       else (bit_length n <=? 53) && (j <=? 1074)))%Z.

(** [num / den] rounded to the nearest integer, ties to the even one
    ([0 <= num], [0 < den]). *)
Definition round_half_even (num den : Z) : Z :=
  let fl := num / den in
  match (2 * (num mod den) ?= den)%Z with
  | Lt => fl
  | Gt => fl + 1
  | Eq => if Z.even fl then fl else fl + 1
  end.

(** Round to nearest, ties to even, in the binade of [r]: 53 bits for a
    normal number, the fixed quantum [2^-1074] below [2^-1022], and an
    infinity once the rounded magnitude reaches [2^1024]. *)
Definition nearest64 (r : Q) : float64 :=
  let n := Z.abs (Qnum r) in
  let d := Zpos (Qden r) in
  if (n =? 0)%Z then Finite 0
  else
    let e0 := Z.log2 n - Z.log2 d in
    let reaches :=
      (if 0 <=? e0 then d * 2 ^ e0 <=? n else d <=? n * 2 ^ (- e0))%Z in
    let e := if reaches then e0 else e0 - 1 in
    let sh := Z.max e (-1022) - 52 in
    let m :=
      if (0 <=? sh)%Z then round_half_even n (d * 2 ^ sh)
      else round_half_even (n * 2 ^ (- sh)) d in
    let negative := (Qnum r <? 0)%Z in
    if ((0 <=? sh) && (2 ^ 1024 <=? m * 2 ^ sh))%Z then Infinity negative
    else
      let magnitude :=
        if (0 <=? sh)%Z then inject_Z (m * 2 ^ sh)
        else Qred (Qmake m (Z.to_pos (2 ^ (- sh)))) in
      Finite (if negative then Qopp magnitude else magnitude).

(** The binary64 result of an operation whose exact result is [q]: a
    binary64 number is its own rounding, any other number goes to the
    nearest one. *)
Definition round64 (q : Q) : float64 :=
  let r := Qred q in
  if representable64 r then Finite r else nearest64 r.

(** [f * 2] and [f / 2] on floats. *)
Definition float_mul2 (f : float64) : float64 :=
  match f with
  | Finite q => round64 (q * 2)
  | Infinity negative => Infinity negative
  | NaN => NaN
  end.

Definition float_div2 (f : float64) : float64 :=
  match f with
  | Finite q => round64 (q / 2)
  | Infinity negative => Infinity negative
  | NaN => NaN
  end.


(** ** Python values *)

(** The scalar values that flow through the adapter. *)
Inductive PyVal : Type :=
  | PNone
  | PBool (b : bool)
  | PInt (z : Z)
  | PFloat (f : float64)
  | PStr (s : string).

(** Exceptions.  The first three are the SDK's; the others are the
    built-in ones the adapter's own expressions can raise. *)
Inductive Exn : Type :=
  | UnauthorizedError (msg : string)
  | ConnectionError (msg : string)
  | EvaCalorError (msg : string)
  | KeyError (key : string)
  | IndexError
  | TypeError
  | ValueError
  | OverflowError
  | Exception (name : string).

Definition is_UnauthorizedError (e : Exn) : bool :=
  match e with UnauthorizedError _ => true | _ => false end.

Definition is_ConnectionError (e : Exn) : bool :=
  match e with ConnectionError _ => true | _ => false end.

(** Modelled from the spec: the class declarations of [pyevacalor] are not
    part of the sources.  The spec describes the SDK's errors as one
    exception hierarchy with the variants unauthorized, connection failure
    and other, all of which the command paths catch with the single clause
    [except EvaCalorError]; so [UnauthorizedError] and [ConnectionError]
    are subclasses of [Error] (imported as [EvaCalorError]). *)
Definition is_EvaCalorError (e : Exn) : bool :=
  match e with
  | UnauthorizedError _ | ConnectionError _ | EvaCalorError _ => true
  | _ => false
  end.

Inductive Result (A : Type) : Type :=
  | Return (a : A)
  | Raise (e : Exn).
Arguments Return {A} a.
Arguments Raise {A} e.

(** The number a numeric value denotes, if it is finite; [bool] is a
    subclass of [int]. *)
Definition py_num (v : PyVal) : option Q :=
  match v with
  | PBool b => Some (inject_Z (if b then 1 else 0))
  | PInt z => Some (inject_Z z)
  | PFloat (Finite q) => Some q
  | _ => None
  end.

(** Python's [==] on the scalar universe.  Numbers are compared by
    their exact values; an infinity equals only the infinity of its sign
    and a NaN equals nothing. *)
Definition py_eq (a b : PyVal) : bool :=
  match a, b with
  | PNone, PNone => true
  | PStr s, PStr t => String.eqb s t
  | PFloat (Infinity n1), PFloat (Infinity n2) => Bool.eqb n1 n2
  | _, _ =>
      match py_num a, py_num b with
      | Some x, Some y => Qeq_bool x y
      | _, _ => false
      end
  end.

(** [x in l] for a list [l]. *)
Definition py_in (x : PyVal) (l : list PyVal) : bool :=
  existsb (py_eq x) l.

(** [x in d] and [d.get(x)] for a dict whose keys are all strings: a key
    that is not a string is hashable but equal to none of them. *)
Definition dict_contains (d : gmap string PyVal) (k : PyVal) : bool :=
  match k with
  | PStr s => bool_decide (is_Some (d !! s))
  | _ => false
  end.

Definition dict_get (d : gmap string PyVal) (k : PyVal) : PyVal :=
  match k with
  | PStr s => default PNone (d !! s)
  | _ => PNone
  end.

(** [v * 2]: integer doubling, float doubling, string repetition. *)
Definition py_mul2 (v : PyVal) : Result PyVal :=
  match v with
  | PNone => Raise TypeError
  | PBool b => Return (PInt (if b then 2 else 0))
  | PInt z => Return (PInt (z * 2))
  | PFloat f => Return (PFloat (float_mul2 f))
  | PStr s => Return (PStr (String.append s s))
  end.


(** The grammar of numeric literals accepted by [float(str)] and
    [int(str)] is the interpreter's; the adapter only needs to know that a
    string either parses or raises [ValueError]. *)
Class Builtins : Type := {
  float_of_str : string -> option float64;
  int_of_str : string -> option Z
}.

(** [float(x)].  An int is rounded to the nearest binary64 number and
    raises [OverflowError] when that is out of range. *)
Definition py_float {B : Builtins} (v : PyVal) : Result float64 :=
  match v with
  | PNone => Raise TypeError
  | PBool b => Return (Finite (inject_Z (if b then 1 else 0)))
  | PInt z =>
      match round64 (inject_Z z) with
      | Infinity _ => Raise OverflowError
      | f => Return f
      end
  | PFloat f => Return f
  | PStr s =>
      match float_of_str s with
      | Some f => Return f
      | None => Raise ValueError
      end
  end.

(** [int(x)] truncates a finite float toward zero and refuses the
    others. *)
Definition py_int {B : Builtins} (v : PyVal) : Result Z :=
  match v with
  | PNone => Raise TypeError
  | PBool b => Return (if b then 1 else 0)
  | PInt z => Return z
  | PFloat (Finite q) => Return (Z.quot (Qnum q) (Zpos (Qden q)))
  | PFloat (Infinity _) => Raise OverflowError
  | PFloat NaN => Raise ValueError
  | PStr s =>
      match int_of_str s with
      | Some z => Return z
      | None => Raise ValueError
      end
  end.


(** ** The vendor device handle, the adapter object and the world *)

(** The attributes of a [pyevacalor] device the adapter reads.  Their
    types are the SDK's business, so each is an arbitrary value. *)
Record Device : Type := mkDevice {
  status : PyVal;
  status_translated : PyVal;
  air_temperature : PyVal;
  set_air_temperature : PyVal;
  gas_temperature : PyVal;
  real_power : PyVal;
  set_power : PyVal;
  name : PyVal;
  name_product : PyVal;
  id_device : PyVal;
  min_temp : PyVal;
  max_temp : PyVal
}.

(** What the adapter asks of the handle: the three methods and the two
    property setters. *)
Inductive VendorCall : Type :=
  | CallUpdate
  | CallTurnOn
  | CallTurnOff
  | SetAirTemperature (v : PyVal)
  | SetPower (v : PyVal).

(** The instance attributes of [EvaCalorHeatingDevice]; [self.device] is
    the handle held by the world. *)
Record Adapter : Type := mkAdapter {
  _device_id : PyVal;
  _on : bool;
  _device_status : PyVal;
  _human_device_status : PyVal;
  _current_temperature : PyVal;
  _target_temperature : PyVal;
  _smoke_temperature : PyVal;
  _real_power : PyVal;
  _current_power : PyVal;
  _name : PyVal
}.

(** One [_LOGGER.error(fmt, *args)] call. *)
Inductive LogArg : Type :=
  | ArgVal (v : PyVal)
  | ArgErr (e : Exn).

Record LogRecord : Type := mkLog {
  log_format : string;
  log_args : list LogArg
}.

(** The world of one entity: the handle the SDK owns, the calls made to
    it so far (oldest first) and the records logged so far. *)
Record World : Type := mkWorld {
  device : Device;
  calls : list VendorCall;
  log : list LogRecord
}.

Record State : Type := mkState {
  self : Adapter;
  world : World
}.

(** The host side of platform setup: every [async_add_entities(entities,
    update_before_add)] call, and the records logged. *)
Record Host : Type := mkHost {
  added : list (list Adapter * bool);
  host_log : list LogRecord
}.


(** ** State and exception monad *)

Definition M (S A : Type) : Type := S -> Result A * S.

Definition ret {S A} (a : A) : M S A := fun s => (Return a, s).

Definition raise {S A} (e : Exn) : M S A := fun s => (Raise e, s).

Definition bind {S A B} (m : M S A) (k : A -> M S B) : M S B :=
  fun s =>
    match m s with
    | (Return a, s') => k a s'
    | (Raise e, s') => (Raise e, s')
    end.

Definition lift {S A} (r : Result A) : M S A := fun s => (r, s).

Definition gets {S A} (f : S -> A) : M S A := fun s => (Return (f s), s).

Definition modify {S} (f : S -> S) : M S unit := fun s => (Return tt, f s).

Notation "'let!' x ':=' m 'in' k" := (bind m (fun x => k))
  (at level 10, x name, m at level 100, k at level 200).

(** [try: body except C1: h1 except C2: h2 ...]: the first clause whose
    class the exception is an instance of handles it; with no such clause
    the exception propagates. *)
Definition try_except {S A} (body : M S A)
    (clauses : list ((Exn -> bool) * (Exn -> M S A))) : M S A :=
  fun s =>
    match body s with
    | (Return a, s') => (Return a, s')
    | (Raise e, s') =>
        match find (fun c => fst c e) clauses with
        | Some c => snd c e s'
        | None => (Raise e, s')
        end
    end.

Class Logging (S : Type) : Type := write_log : LogRecord -> S -> S.

#[export] Instance State_Logging : Logging State := fun r s =>
  mkState (self s)
    (mkWorld (device (world s)) (calls (world s)) (log (world s) ++ [r])).

#[export] Instance Host_Logging : Logging Host := fun r h =>
  mkHost (added h) (host_log h ++ [r]).

(** [_LOGGER.error(fmt, *args)] *)
Definition _LOGGER_error {S} `{Logging S} (fmt : string)
    (args : list LogArg) : M S unit :=
  modify (write_log (mkLog fmt args)).


(** ** Constants and the SDK *)

(** The names [climate.py] imports from [.const] and from the host's
    constant modules.  Their values are not part of the sources, so the
    development is parametric in them. *)
Class Constants : Type := {
  FAN_1 : PyVal;
  FAN_2 : PyVal;
  FAN_3 : PyVal;
  FAN_4 : PyVal;
  FAN_5 : PyVal;
  CURRENT_HVAC_HEAT : PyVal;
  CURRENT_HVAC_IDLE : PyVal;
  CURRENT_HVAC_OFF : PyVal;
  ATTR_TEMPERATURE : string;
  CONF_EMAIL : string;
  CONF_PASSWORD : string;
  CONF_UUID : string
}.

(** Modelled from the spec: the host's [climate.const] is not part of the
    sources; the spec gives the two composite operating modes as the
    strings "heat" and "off". *)
Definition HVAC_MODE_HEAT : PyVal := PStr "heat".
Definition HVAC_MODE_OFF : PyVal := PStr "off".

(** The client object [evacalor(...)] returns; reading [eva.devices]
    yields the account's handles or raises. *)
Record Eva : Type := mkEva {
  devices : Result (list Device)
}.

(** The SDK as an oracle.  A call on a handle leaves the handle in a new
    state and either returns or raises; constructing a client returns it
    or raises. *)
Class Pyevacalor : Type := {
  sdk_call : VendorCall -> Device -> option Exn * Device;
  evacalor : PyVal -> PyVal -> PyVal -> Result Eva
}.


(** ** The platform *)

(** Assignment to one instance attribute. *)
Definition set__on (v : bool) (a : Adapter) : Adapter :=
  mkAdapter (_device_id a) v (_device_status a) (_human_device_status a)
    (_current_temperature a) (_target_temperature a)
    (_smoke_temperature a) (_real_power a) (_current_power a) (_name a).

Definition set__device_status (v : PyVal) (a : Adapter) : Adapter :=
  mkAdapter (_device_id a) (_on a) v (_human_device_status a)
    (_current_temperature a) (_target_temperature a)
    (_smoke_temperature a) (_real_power a) (_current_power a) (_name a).

Definition set__human_device_status (v : PyVal) (a : Adapter) : Adapter :=
  mkAdapter (_device_id a) (_on a) (_device_status a) v
    (_current_temperature a) (_target_temperature a)
    (_smoke_temperature a) (_real_power a) (_current_power a) (_name a).

Definition set__current_temperature (v : PyVal) (a : Adapter) : Adapter :=
  mkAdapter (_device_id a) (_on a) (_device_status a)
    (_human_device_status a) v (_target_temperature a)
    (_smoke_temperature a) (_real_power a) (_current_power a) (_name a).

Definition set__target_temperature (v : PyVal) (a : Adapter) : Adapter :=
  mkAdapter (_device_id a) (_on a) (_device_status a)
    (_human_device_status a) (_current_temperature a) v
    (_smoke_temperature a) (_real_power a) (_current_power a) (_name a).

Definition set__smoke_temperature (v : PyVal) (a : Adapter) : Adapter :=
  mkAdapter (_device_id a) (_on a) (_device_status a)
    (_human_device_status a) (_current_temperature a)
    (_target_temperature a) v (_real_power a) (_current_power a) (_name a).

Definition set__real_power (v : PyVal) (a : Adapter) : Adapter :=
  mkAdapter (_device_id a) (_on a) (_device_status a)
    (_human_device_status a) (_current_temperature a)
    (_target_temperature a) (_smoke_temperature a) v (_current_power a)
    (_name a).

Definition set__current_power (v : PyVal) (a : Adapter) : Adapter :=
  mkAdapter (_device_id a) (_on a) (_device_status a)
    (_human_device_status a) (_current_temperature a)
    (_target_temperature a) (_smoke_temperature a) (_real_power a) v
    (_name a).

(** [self.attr = v] *)
Definition assign (f : Adapter -> Adapter) : M State unit :=
  modify (fun s => mkState (f (self s)) (world s)).

(** [self.attr] and [self.device.attr] *)
Definition self_attr {A} (f : Adapter -> A) : M State A :=
  gets (fun s => f (self s)).

Definition device_attr {A} (f : Device -> A) : M State A :=
  gets (fun s => f (device (world s))).

(** [d[k]] on a dict. *)
Definition subscript {S} (d : gmap string PyVal) (k : string) : M S PyVal :=
  match d !! k with
  | Some v => ret v
  | None => raise (KeyError k)
  end.

(** [d.get(k)] on a dict. *)
Definition kwargs_get (d : gmap string PyVal) (k : string) : PyVal :=
  default PNone (d !! k).

Definition is_None (v : PyVal) : bool :=
  match v with PNone => true | _ => false end.

Section Platform.

Context {B : Builtins} {K : Constants} {V : Pyevacalor}.

(** A method call or property assignment on [self.device]: recorded,
    answered by the SDK. *)
Definition vendor (c : VendorCall) : M State unit :=
  fun s =>
    let '(r, d) := sdk_call c (device (world s)) in
    let s' :=
      mkState (self s)
        (mkWorld d (calls (world s) ++ [c]) (log (world s))) in
    match r with
    | None => (Return tt, s')
    | Some e => (Raise e, s')
    end.

Definition FAN_MODES : list PyVal := [FAN_1; FAN_2; FAN_3; FAN_4; FAN_5].

Definition CURRENT_HVAC_MAP_EFESTO_HEAT : gmap string PyVal :=
  <["ON" := CURRENT_HVAC_HEAT]>
    (<["CLEANING FIRE-POT" := CURRENT_HVAC_HEAT]>
      (<["FLAME LIGHT" := CURRENT_HVAC_HEAT]>
        (<["OFF" := CURRENT_HVAC_OFF]> ∅))).

(** [async_add_entities(entities, update_before_add)], the host's
    callback. *)
Definition async_add_entities (entities : list Adapter)
    (update_before_add : bool) : M Host unit :=
  modify (fun h =>
    mkHost (added h ++ [(entities, update_before_add)]) (host_log h)).

(** [EvaCalorHeatingDevice.__init__] *)
Definition __init__ (device : Device) : Adapter :=
  {| _device_id := id_device device;
     _on := false;
     _device_status := PNone;
     _human_device_status := PNone;
     _current_temperature := PNone;
     _target_temperature := PNone;
     _smoke_temperature := PNone;
     _real_power := PNone;
     _current_power := PNone;
     _name := name device |}.

(** [async_setup_entry]; [None] stands for a handler's early
    [return False]. *)
Definition async_setup_entry (entry_data : gmap string PyVal)
    : M Host bool :=
  let! email := subscript entry_data CONF_EMAIL in
  let! password := subscript entry_data CONF_PASSWORD in
  let! gen_uuid := subscript entry_data CONF_UUID in
  let! found :=
    try_except
      (let! eva := lift (evacalor email password gen_uuid) in
       let! ds := lift (devices eva) in
       match ds with
       | device :: _ => ret (Some device)
       | [] => raise IndexError
       end)
      [ (is_UnauthorizedError, fun _ =>
           let! _ := _LOGGER_error "Wrong credentials for Eva Calor" [] in
           ret None);
        (is_ConnectionError, fun _ =>
           let! _ :=
             _LOGGER_error "Connection to Eva Calor not possible" [] in
           ret None);
        (is_EvaCalorError, fun err =>
           let! _ :=
             _LOGGER_error "Unknown Eva Calor error: %s" [ArgErr err] in
           ret None) ] in
  match found with
  | None => ret false
  | Some device =>
      let! _ := async_add_entities [__init__ device] true in
      ret true
  end.

(** *** Properties *)

Definition unique_id (a : Adapter) : PyVal := _device_id a.

Definition current_temperature (a : Adapter) : PyVal :=
  _current_temperature a.

Definition target_temperature (a : Adapter) : PyVal :=
  _target_temperature a.

Definition hvac_mode (a : Adapter) : PyVal :=
  if _on a then HVAC_MODE_HEAT else HVAC_MODE_OFF.

Definition hvac_modes : list PyVal := [HVAC_MODE_HEAT; HVAC_MODE_OFF].

Definition fan_mode (a : Adapter) : PyVal :=
  if py_in (_current_power a) FAN_MODES then _current_power a else FAN_1.

Definition fan_modes : list PyVal := FAN_MODES.

Definition hvac_action (a : Adapter) : PyVal :=
  if dict_contains CURRENT_HVAC_MAP_EFESTO_HEAT (_human_device_status a)
  then dict_get CURRENT_HVAC_MAP_EFESTO_HEAT (_human_device_status a)
  else CURRENT_HVAC_IDLE.

(** *** Commands *)

Definition turn_off : M State unit :=
  try_except (vendor CallTurnOff)
    [ (is_EvaCalorError, fun err =>
         _LOGGER_error "Failed to turn off device (original message: %s)"
           [ArgErr err]) ].

Definition turn_on : M State unit :=
  try_except (vendor CallTurnOn)
    [ (is_EvaCalorError, fun err =>
         _LOGGER_error "Failed to turn on device (original message: %s)"
           [ArgErr err]) ].

Definition set_temperature (kwargs : gmap string PyVal) : M State unit :=
  let temperature := kwargs_get kwargs ATTR_TEMPERATURE in
  if is_None temperature then ret tt
  else
    try_except
      (let! doubled := lift (py_mul2 temperature) in
       vendor (SetAirTemperature doubled))
      [ (is_EvaCalorError, fun err =>
           _LOGGER_error "Failed to set temperature (original message: %s)"
             [ArgErr err]) ].

Definition set_fan_mode (fan_mode : PyVal) : M State unit :=
  if is_None fan_mode then ret tt
  else
    try_except (vendor (SetPower fan_mode))
      [ (is_EvaCalorError, fun err =>
           _LOGGER_error "Failed to set temperature (original message: %s)"
             [ArgErr err]) ].

Definition set_hvac_mode (hvac_mode : PyVal) : M State unit :=
  if py_eq hvac_mode HVAC_MODE_OFF then turn_off
  else if py_eq hvac_mode HVAC_MODE_HEAT then turn_on
  else ret tt.

(** *** The poll *)

(** The [try] block of [update]: [true] when the refresh returned,
    [false] for a handler's early [return False]. *)
Definition refresh : M State bool :=
  try_except
    (let! _ := vendor CallUpdate in ret true)
    [ (is_UnauthorizedError, fun _ =>
         let! id := self_attr _device_id in
         let! _ :=
           _LOGGER_error "Wrong credentials for device %s" [ArgVal id] in
         ret false);
      (is_ConnectionError, fun _ =>
         let! id := self_attr _device_id in
         let! _ :=
           _LOGGER_error "Connection to %s not possible" [ArgVal id] in
         ret false);
      (is_EvaCalorError, fun err =>
         let! _ := _LOGGER_error "Error: %s" [ArgErr err] in
         ret false) ].

Definition update : M State bool :=
  let! refreshed := refresh in
  if negb refreshed then ret false
  else
    let! st := device_attr status in
    let! _ := assign (set__device_status st) in
    let! air := device_attr air_temperature in
    let! air_f := lift (py_float air) in
    let! _ := assign (set__current_temperature (PFloat air_f)) in
    let! target := device_attr set_air_temperature in
    let! target_f := lift (py_float target) in
    let! _ :=
      assign (set__target_temperature (PFloat (float_div2 target_f))) in
    let! human := device_attr status_translated in
    let! _ := assign (set__human_device_status human) in
    let! gas := device_attr gas_temperature in
    let! gas_f := lift (py_float gas) in
    let! _ := assign (set__smoke_temperature (PFloat gas_f)) in
    let! rp := device_attr real_power in
    let! rp_i := lift (py_int rp) in
    let! _ := assign (set__real_power (PInt rp_i)) in
    let! sp := device_attr set_power in
    let! sp_i := lift (py_int sp) in
    let! _ := assign (set__current_power (PInt sp_i)) in
    let! ds := self_attr _device_status in
    let! _ :=
      if py_eq ds (PInt 0) then assign (set__on false)
      else assign (set__on true) in
    ret true.

(** The record the handlers of [update] log for a vendor error [e]. *)
Definition update_error_record (a : Adapter) (e : Exn) : LogRecord :=
  match e with
  | UnauthorizedError _ =>
      mkLog "Wrong credentials for device %s" [ArgVal (_device_id a)]
  | ConnectionError _ =>
      mkLog "Connection to %s not possible" [ArgVal (_device_id a)]
  | _ => mkLog "Error: %s" [ArgErr e]
  end.

(** *** Reachable states *)

(** What the host can do to an entity once it exists. *)
Inductive Op : Type :=
  | OpUpdate
  | OpTurnOn
  | OpTurnOff
  | OpSetTemperature (kwargs : gmap string PyVal)
  | OpSetFanMode (fan_mode : PyVal)
  | OpSetHvacMode (hvac_mode : PyVal).

(** The state an operation leaves behind, whether it returned or
    raised: the entity object outlives an exception. *)
Definition run_op (o : Op) (s : State) : State :=
  match o with
  | OpUpdate => snd (update s)
  | OpTurnOn => snd (turn_on s)
  | OpTurnOff => snd (turn_off s)
  | OpSetTemperature kwargs => snd (set_temperature kwargs s)
  | OpSetFanMode v => snd (set_fan_mode v s)
  | OpSetHvacMode v => snd (set_hvac_mode v s)
  end.

Definition run_ops (ops : list Op) (s : State) : State :=
  fold_left (fun s o => run_op o s) ops s.

(** The entity as [async_setup_entry] hands it to the host. *)
Definition fresh (d : Device) : State :=
  mkState (__init__ d) (mkWorld d [] []).

Definition reachable (s : State) : Prop :=
  exists d ops, s = run_ops ops (fresh d).

(** No poll has come back yet: every [update] among [ops], run from
    [s], finds the handle's refresh raising. *)
Fixpoint unpolled (ops : list Op) (s : State) : bool :=
  match ops with
  | [] => true
  | o :: rest =>
      match o with
      | OpUpdate =>
          match fst (sdk_call CallUpdate (device (world s))) with
          | Some _ => true
          | None => false
          end
      | _ => true
      end && unpolled rest (run_op o s)
  end.

End Platform.

Ltac unfold_monad :=
  unfold bind, ret, raise, lift, gets, modify, assign, self_attr,
    device_attr, _LOGGER_error, write_log, State_Logging, Host_Logging in *.

(** Case analysis along the body of [update]: the SDK's answer, then each
    conversion in turn. *)
Ltac update_paths s :=
  unfold update, refresh, try_except, vendor; unfold_monad;
  let d := fresh "d" in
  let e := fresh "e" in
  destruct (sdk_call CallUpdate (device (world s))) as [[e|] d]; simpl;
  [ destruct e; simpl
  | destruct (py_float (air_temperature d)); simpl;
    [ destruct (py_float (set_air_temperature d)); simpl;
      [ destruct (py_float (gas_temperature d)); simpl;
        [ destruct (py_int (real_power d)); simpl;
          [ destruct (py_int (set_power d)); simpl;
            [ destruct (py_eq (status d) (PInt 0)); simpl | ]
          | ]
        | ]
      | ]
    | ] ].


(** ** Sample instances *)

(** Concrete constants, a simulated stove and two failing SDKs, on which
    the model can be evaluated. *)
Definition sample_builtins : Builtins :=
  {| float_of_str := fun _ => None; int_of_str := fun _ => None |}.

Definition sample_constants : Constants :=
  {| FAN_1 := PInt 1; FAN_2 := PInt 2; FAN_3 := PInt 3;
     FAN_4 := PInt 4; FAN_5 := PInt 5;
     CURRENT_HVAC_HEAT := PStr "heating";
     CURRENT_HVAC_IDLE := PStr "idle";
     CURRENT_HVAC_OFF := PStr "off";
     ATTR_TEMPERATURE := "temperature";
     CONF_EMAIL := "email";
     CONF_PASSWORD := "password";
     CONF_UUID := "uuid" |}.

Definition sample_device : Device :=
  {| status := PInt 0;
     status_translated := PStr "OFF";
     air_temperature := PFloat (39 # 2);
     set_air_temperature := PInt 42;
     gas_temperature := PInt 31;
     real_power := PInt 0;
     set_power := PInt 3;
     name := PStr "Stove";
     name_product := PStr "Eva";
     id_device := PStr "AABBCCDDEEFF";
     min_temp := PInt 7;
     max_temp := PInt 40 |}.

Definition with_status (st human : PyVal) (d : Device) : Device :=
  mkDevice st human (air_temperature d) (set_air_temperature d)
    (gas_temperature d) (real_power d) (set_power d) (name d)
    (name_product d) (id_device d) (min_temp d) (max_temp d).

Definition with_set_air_temperature (v : PyVal) (d : Device) : Device :=
  mkDevice (status d) (status_translated d) (air_temperature d) v
    (gas_temperature d) (real_power d) (set_power d) (name d)
    (name_product d) (id_device d) (min_temp d) (max_temp d).

Definition with_set_power (v : PyVal) (d : Device) : Device :=
  mkDevice (status d) (status_translated d) (air_temperature d)
    (set_air_temperature d) (gas_temperature d) (real_power d) v (name d)
    (name_product d) (id_device d) (min_temp d) (max_temp d).

(** A stove that obeys every command at once. *)
Definition stove : Pyevacalor :=
  {| sdk_call := fun c d =>
       match c with
       | CallUpdate => (None, d)
       | CallTurnOn => (None, with_status (PInt 2) (PStr "ON") d)
       | CallTurnOff => (None, with_status (PInt 0) (PStr "OFF") d)
       | SetAirTemperature v => (None, with_set_air_temperature v d)
       | SetPower v => (None, with_set_power v d)
       end;
     evacalor := fun _ _ _ => Return (mkEva (Return [sample_device])) |}.

(** An SDK that fails every call with the given error. *)
Definition failing (e : Exn) : Pyevacalor :=
  {| sdk_call := fun _ d => (Some e, d);
     evacalor := fun _ _ _ => Raise e |}.

(** An SDK whose client is built but whose device list cannot be read. *)
Definition failing_devices (e : Exn) : Pyevacalor :=
  {| sdk_call := fun _ d => (Some e, d);
     evacalor := fun _ _ _ => Return (mkEva (Raise e)) |}.

Definition sample_entry : gmap string PyVal :=
  <["email" := PStr "test-username"]>
    (<["password" := PStr "test-password"]>
      (<["uuid" := PStr "AABBCCDDEEFF"]> ∅)).

Definition sample_host : Host := mkHost [] [].


(** ** The rest of the platform *)

(** [async_setup_platform]: the body is only a docstring. *)
Definition async_setup_platform : M Host unit := ret tt.

(** The remaining names [climate.py] imports: the attribute keys and the
    domain from [.const], the feature flags, the precision and the unit
    from the host.  Their values are not part of the sources. *)
Class HostConstants : Type := {
  ATTR_DEVICE_STATUS : string;
  ATTR_HUMAN_DEVICE_STATUS : string;
  ATTR_SMOKE_TEMP : string;
  ATTR_REAL_POWER : string;
  DOMAIN : PyVal;
  SUPPORT_TARGET_TEMPERATURE : Z;
  SUPPORT_FAN_MODE : Z;
  PRECISION_WHOLE : PyVal;
  TEMP_CELSIUS : PyVal
}.

(** The dict [device_info] returns; ["identifiers"] is a set of
    (domain, id) pairs. *)
Record DeviceInfo : Type := mkDeviceInfo {
  identifiers : list (PyVal * PyVal);
  info_name : PyVal;
  manufacturer : PyVal;
  model : PyVal
}.

(** The properties of [EvaCalorHeatingDevice] not given above.  Those
    that read [self.device] take the state, the others the adapter. *)
Module EvaCalorHeatingDevice.
Section Properties.

Context {HC : HostConstants}.

Definition supported_features : Z :=
  Z.lor SUPPORT_TARGET_TEMPERATURE SUPPORT_FAN_MODE.


Definition name (a : Adapter) : PyVal := _name a.

Definition device_info (s : State) : DeviceInfo :=
  {| identifiers := [(DOMAIN, unique_id (self s))];
     info_name := name (self s);
     manufacturer := PStr "Micronova";
     model := name_product (device (world s)) |}.

Definition precision : PyVal := PRECISION_WHOLE.

Definition target_temperature_step : PyVal := PRECISION_WHOLE.

Definition temperature_unit : PyVal := TEMP_CELSIUS.

Definition min_temp (s : State) : PyVal := min_temp (device (world s)).

Definition max_temp (s : State) : PyVal := max_temp (device (world s)).

End Properties.
End EvaCalorHeatingDevice.

(** *** Shapes of the snapshot *)

Definition none_or_float (v : PyVal) : bool :=
  match v with PNone | PFloat _ => true | _ => false end.

Definition none_or_int (v : PyVal) : bool :=
  match v with PNone | PInt _ => true | _ => false end.

(** Every converted attribute holds [None] or a value of the type its
    conversion produces. *)
Definition snapshot_typed (a : Adapter) : bool :=
  none_or_float (_current_temperature a)
  && none_or_float (_target_temperature a)
  && none_or_float (_smoke_temperature a)
  && none_or_int (_real_power a)
  && none_or_int (_current_power a).

Section Images.

Context {B : Builtins} {K : Constants} {V : Pyevacalor}.

(** The adapter's snapshot is what one poll of the handle [d] writes:
    all eight attributes come from the same [d]. *)
Definition image_of (a : Adapter) (d : Device) : Prop :=
  _device_status a = status d
  /\ _human_device_status a = status_translated d
  /\ _on a = negb (py_eq (status d) (PInt 0))
  /\ (exists f, py_float (air_temperature d) = Return f
        /\ _current_temperature a = PFloat f)
  /\ (exists f, py_float (set_air_temperature d) = Return f
        /\ _target_temperature a = PFloat (float_div2 f))
  /\ (exists f, py_float (gas_temperature d) = Return f
        /\ _smoke_temperature a = PFloat f)
  /\ (exists z, py_int (real_power d) = Return z
        /\ _real_power a = PInt z)
  /\ (exists z, py_int (set_power d) = Return z
        /\ _current_power a = PInt z).

(** Every [update] among [ops], run from [s], returns ([True] or
    [False]) rather than raises. *)
Fixpoint polls_return (ops : list Op) (s : State) : bool :=
  match ops with
  | [] => true
  | o :: rest =>
      match o with
      | OpUpdate =>
          match fst (update s) with
          | Return _ => true
          | Raise _ => false
          end
      | _ => true
      end && polls_return rest (run_op o s)
  end.

(** No [update] among [ops], run from [s], returns [True]: each one
    returns [False] or raises. *)
Fixpoint never_succeeded (ops : list Op) (s : State) : bool :=
  match ops with
  | [] => true
  | o :: rest =>
      match o with
      | OpUpdate =>
          match fst (update s) with
          | Return true => false
          | _ => true
          end
      | _ => true
      end && never_succeeded rest (run_op o s)
  end.

End Images.

(** The record the handlers of [async_setup_entry] log for a vendor
    error [e]. *)
Definition setup_error_record (e : Exn) : LogRecord :=
  match e with
  | UnauthorizedError _ => mkLog "Wrong credentials for Eva Calor" []
  | ConnectionError _ => mkLog "Connection to Eva Calor not possible" []
  | _ => mkLog "Unknown Eva Calor error: %s" [ArgErr e]
  end.

(** *** More sample instances *)


(** Fan levels given as strings. *)
Definition string_levels : Constants :=
  {| FAN_1 := PStr "1"; FAN_2 := PStr "2"; FAN_3 := PStr "3";
     FAN_4 := PStr "4"; FAN_5 := PStr "5";
     CURRENT_HVAC_HEAT := PStr "heating";
     CURRENT_HVAC_IDLE := PStr "idle";
     CURRENT_HVAC_OFF := PStr "off";
     ATTR_TEMPERATURE := "temperature";
     CONF_EMAIL := "email";
     CONF_PASSWORD := "password";
     CONF_UUID := "uuid" |}.

(** Built-ins that read the decimal strings "1" to "5". *)
Definition digit_builtins : Builtins :=
  {| float_of_str := fun _ => None;
     int_of_str := fun s =>
       if String.eqb s "1" then Some 1
       else if String.eqb s "2" then Some 2
       else if String.eqb s "3" then Some 3
       else if String.eqb s "4" then Some 4
       else if String.eqb s "5" then Some 5
       else None |}.

(** A handle whose set point is missing. *)
Definition unset_device : Device := with_set_air_temperature PNone sample_device.

(** A burning stove whose smoke temperature is missing. *)
Definition smokeless_device : Device :=
  {| status := PInt 2;
     status_translated := PStr "ON";
     air_temperature := PFloat (39 # 2);
     set_air_temperature := PInt 42;
     gas_temperature := PNone;
     real_power := PInt 3;
     set_power := PInt 3;
     name := PStr "Stove";
     name_product := PStr "Eva";
     id_device := PStr "AABBCCDDEEFF";
     min_temp := PInt 7;
     max_temp := PInt 40 |}.

(** An account without devices. *)
Definition no_devices : Pyevacalor :=
  {| sdk_call := fun _ d => (None, d);
     evacalor := fun _ _ _ => Return (mkEva (Return [])) |}.


(** ** Arithmetic on half-degree values *)












(** binary64 at its edges. *)
Example round64_tie_down :
  round64 (inject_Z (2 ^ 53 + 1)) = Finite (inject_Z (2 ^ 53)).
Proof. vm_compute. reflexivity. Qed.

Example round64_tie_up :
  round64 (inject_Z (2 ^ 53 + 3)) = Finite (inject_Z (2 ^ 53 + 4)).
Proof. vm_compute. reflexivity. Qed.

Example round64_one_tenth :
  round64 (1 # 10) = Finite (3602879701896397 # 36028797018963968).
Proof. vm_compute. reflexivity. Qed.

Example float_of_largest_int :
  py_float (B:=sample_builtins) (PInt (2 ^ 1024 - 2 ^ 970 - 1))
  = Return (Finite (inject_Z (2 ^ 1024 - 2 ^ 971))).
Proof. vm_compute. reflexivity. Qed.

Example float_of_int_overflows :
  py_float (B:=sample_builtins) (PInt (2 ^ 1024 - 2 ^ 970))
  = Raise OverflowError
  /\ py_float (B:=sample_builtins) (PInt (10 ^ 400)) = Raise OverflowError.
Proof. split; vm_compute; reflexivity. Qed.

Example doubling_overflows :
  float_mul2 (Finite (inject_Z (2 ^ 1023))) = Infinity false
  /\ float_mul2 (Finite (inject_Z (- 2 ^ 1023))) = Infinity true.
Proof. split; vm_compute; reflexivity. Qed.

Example halving_underflows :
  float_div2 (Finite (1 # Z.to_pos (2 ^ 1074))) = Finite 0
  /\ float_div2 (Finite (3 # Z.to_pos (2 ^ 1074)))
     = Finite (1 # Z.to_pos (2 ^ 1073)).
Proof. split; vm_compute; reflexivity. Qed.

Example int_of_float_edges :
  py_int (B:=sample_builtins) (PFloat (Finite (- 7 # 2))) = Return (- 3)
  /\ py_int (B:=sample_builtins) (PFloat (Infinity false))
     = Raise OverflowError
  /\ py_int (B:=sample_builtins) (PFloat NaN) = Raise ValueError.
Proof. repeat split. Qed.


(** ** How the methods run *)

Section Runs.

Context {B : Builtins} {K : Constants} {V : Pyevacalor}.

(** A guarded call on the handle: the call is always recorded and the
    handle always moves to the SDK's answer; a vendor error is logged
    and swallowed, any other exception propagates. *)
Lemma guarded_call_run (c : VendorCall) (fmt : string) (s : State) :
  try_except (vendor c)
    [ (is_EvaCalorError, fun err => _LOGGER_error fmt [ArgErr err]) ] s
  = let after l :=
      mkState (self s)
        (mkWorld (snd (sdk_call c (device (world s))))
           (calls (world s) ++ [c]) l) in
    match fst (sdk_call c (device (world s))) with
    | None => (Return tt, after (log (world s)))
    | Some e =>
        if is_EvaCalorError e
        then (Return tt,
              after (log (world s) ++ [mkLog fmt [ArgErr e]]))
        else (Raise e, after (log (world s)))
    end.
Proof.
  unfold try_except, vendor.
  destruct (sdk_call c (device (world s))) as [[e|] d]; simpl;
    [destruct e|]; reflexivity.
Qed.

Lemma turn_off_run (s : State) :
  turn_off s
  = let after l :=
      mkState (self s)
        (mkWorld (snd (sdk_call CallTurnOff (device (world s))))
           (calls (world s) ++ [CallTurnOff]) l) in
    match fst (sdk_call CallTurnOff (device (world s))) with
    | None => (Return tt, after (log (world s)))
    | Some e =>
        if is_EvaCalorError e
        then (Return tt,
              after (log (world s) ++
                [mkLog "Failed to turn off device (original message: %s)"
                   [ArgErr e]]))
        else (Raise e, after (log (world s)))
    end.
Proof. apply guarded_call_run. Qed.

Lemma turn_on_run (s : State) :
  turn_on s
  = let after l :=
      mkState (self s)
        (mkWorld (snd (sdk_call CallTurnOn (device (world s))))
           (calls (world s) ++ [CallTurnOn]) l) in
    match fst (sdk_call CallTurnOn (device (world s))) with
    | None => (Return tt, after (log (world s)))
    | Some e =>
        if is_EvaCalorError e
        then (Return tt,
              after (log (world s) ++
                [mkLog "Failed to turn on device (original message: %s)"
                   [ArgErr e]]))
        else (Raise e, after (log (world s)))
    end.
Proof. apply guarded_call_run. Qed.

(** With a temperature supplied, [set_temperature] is one guarded
    assignment of the doubled value. *)
Lemma set_temperature_run (kwargs : gmap string PyVal) (s : State)
    (raw : PyVal) :
  py_mul2 (kwargs_get kwargs ATTR_TEMPERATURE) = Return raw ->
  set_temperature kwargs s
  = try_except (vendor (SetAirTemperature raw))
      [ (is_EvaCalorError, fun err =>
           _LOGGER_error "Failed to set temperature (original message: %s)"
             [ArgErr err]) ] s.
Proof.
  intros Hraw. unfold set_temperature.
  destruct (kwargs_get kwargs ATTR_TEMPERATURE) eqn:Ht;
    try discriminate Hraw; simpl in *;
    injection Hraw as <-; unfold try_except, bind, lift; reflexivity.
Qed.

Lemma set_fan_mode_run (fan_mode : PyVal) (s : State) :
  fan_mode <> PNone ->
  set_fan_mode fan_mode s
  = try_except (vendor (SetPower fan_mode))
      [ (is_EvaCalorError, fun err =>
           _LOGGER_error "Failed to set temperature (original message: %s)"
             [ArgErr err]) ] s.
Proof.
  intros Hsome. unfold set_fan_mode.
  destruct fan_mode; [contradiction | reflexivity ..].
Qed.

(** No command assigns to an attribute of [self]. *)
Lemma guarded_call_self (c : VendorCall) (fmt : string) (s : State) :
  self (snd (try_except (vendor c)
    [ (is_EvaCalorError, fun err => _LOGGER_error fmt [ArgErr err]) ] s))
  = self s.
Proof.
  rewrite guarded_call_run. simpl.
  destruct (fst (sdk_call c (device (world s)))) as [e|];
    [destruct (is_EvaCalorError e)|]; reflexivity.
Qed.

Lemma guarded_call_calls (c : VendorCall) (fmt : string) (s : State) :
  calls (world (snd (try_except (vendor c)
    [ (is_EvaCalorError, fun err => _LOGGER_error fmt [ArgErr err]) ] s)))
  = calls (world s) ++ [c].
Proof.
  rewrite guarded_call_run. simpl.
  destruct (fst (sdk_call c (device (world s)))) as [e|];
    [destruct (is_EvaCalorError e)|]; reflexivity.
Qed.

Lemma update_vendor_error (s : State) (e : Exn) :
  fst (sdk_call CallUpdate (device (world s))) = Some e ->
  is_EvaCalorError e = true ->
  update s
  = (Return false,
     mkState (self s)
       (mkWorld (snd (sdk_call CallUpdate (device (world s))))
          (calls (world s) ++ [CallUpdate])
          (log (world s) ++ [update_error_record (self s) e]))).
Proof.
  intros Hcall Hvendor. unfold update, refresh, try_except, vendor.
  unfold_monad.
  destruct (sdk_call CallUpdate (device (world s))) as [r d].
  simpl in Hcall. subst r.
  destruct e; try discriminate Hvendor; reflexivity.
Qed.

Lemma update_other_error (s : State) (e : Exn) :
  fst (sdk_call CallUpdate (device (world s))) = Some e ->
  is_EvaCalorError e = false ->
  update s
  = (Raise e,
     mkState (self s)
       (mkWorld (snd (sdk_call CallUpdate (device (world s))))
          (calls (world s) ++ [CallUpdate]) (log (world s)))).
Proof.
  intros Hcall Hother. unfold update, refresh, try_except, vendor.
  unfold_monad.
  destruct (sdk_call CallUpdate (device (world s))) as [r d].
  simpl in Hcall. subst r.
  destruct e; try discriminate Hother; reflexivity.
Qed.

(** The snapshot is written one attribute at a time: when the refresh
    returns but the first reading does not convert, the built-in
    exception propagates with the status code already assigned. *)
Lemma update_conversion_error (s : State) (d : Device) (e : Exn) :
  sdk_call CallUpdate (device (world s)) = (None, d) ->
  py_float (air_temperature d) = Raise e ->
  update s
  = (Raise e,
     mkState (set__device_status (status d) (self s))
       (mkWorld d (calls (world s) ++ [CallUpdate]) (log (world s)))).
Proof.
  intros Hcall Hair. unfold update, refresh, try_except, vendor.
  unfold_monad. rewrite Hcall. simpl. rewrite Hair. reflexivity.
Qed.

(** A poll that returns [True] has refreshed the handle without an
    exception, converted every reading, and overwritten the whole
    snapshot from the refreshed handle. *)
Lemma update_true_inv (s s' : State) :
  update s = (Return true, s') ->
  let d := device (world s') in
  sdk_call CallUpdate (device (world s)) = (None, d)
  /\ calls (world s') = calls (world s) ++ [CallUpdate]
  /\ log (world s') = log (world s)
  /\ _device_id (self s') = _device_id (self s)
  /\ _name (self s') = _name (self s)
  /\ _device_status (self s') = status d
  /\ _human_device_status (self s') = status_translated d
  /\ _on (self s') = negb (py_eq (status d) (PInt 0))
  /\ (exists f, py_float (air_temperature d) = Return f
        /\ _current_temperature (self s') = PFloat f)
  /\ (exists f, py_float (set_air_temperature d) = Return f
        /\ _target_temperature (self s') = PFloat (float_div2 f))
  /\ (exists f, py_float (gas_temperature d) = Return f
        /\ _smoke_temperature (self s') = PFloat f)
  /\ (exists z, py_int (real_power d) = Return z
        /\ _real_power (self s') = PInt z)
  /\ (exists z, py_int (set_power d) = Return z
        /\ _current_power (self s') = PInt z).
Proof.
  unfold update, refresh, try_except, vendor. unfold_monad.
  destruct (sdk_call CallUpdate (device (world s))) as [[e|] d]; simpl.
  { destruct e; simpl; intros Hrun; discriminate Hrun. }
  destruct (py_float (air_temperature d)) as [af|] eqn:Haf; simpl;
    [|intros Hrun; discriminate Hrun].
  destruct (py_float (set_air_temperature d)) as [tf|] eqn:Htf; simpl;
    [|intros Hrun; discriminate Hrun].
  destruct (py_float (gas_temperature d)) as [gf|] eqn:Hgf; simpl;
    [|intros Hrun; discriminate Hrun].
  destruct (py_int (real_power d)) as [rp|] eqn:Hrp; simpl;
    [|intros Hrun; discriminate Hrun].
  destruct (py_int (set_power d)) as [sp|] eqn:Hsp; simpl;
    [|intros Hrun; discriminate Hrun].
  destruct (py_eq (status d) (PInt 0)) eqn:Hzero; simpl;
    intros Hrun; injection Hrun as <-; simpl;
    rewrite Haf, Htf, Hgf, Hrp, Hsp, Hzero; simpl;
    repeat split; eauto.
Qed.

(** Conversely the poll does return [True] whenever the refresh returns
    and every reading converts. *)
Lemma update_true (s : State) (d : Device) (af tf gf : float64)
    (rp sp : Z) :
  sdk_call CallUpdate (device (world s)) = (None, d) ->
  py_float (air_temperature d) = Return af ->
  py_float (set_air_temperature d) = Return tf ->
  py_float (gas_temperature d) = Return gf ->
  py_int (real_power d) = Return rp ->
  py_int (set_power d) = Return sp ->
  update s
  = (Return true,
     mkState
       (mkAdapter (_device_id (self s)) (negb (py_eq (status d) (PInt 0)))
          (status d) (status_translated d) (PFloat af)
          (PFloat (float_div2 tf)) (PFloat gf) (PInt rp) (PInt sp)
          (_name (self s)))
       (mkWorld d (calls (world s) ++ [CallUpdate]) (log (world s)))).
Proof.
  intros Hcall Haf Htf Hgf Hrp Hsp.
  unfold update, refresh, try_except, vendor. unfold_monad.
  rewrite Hcall. simpl. rewrite Haf. simpl. rewrite Htf. simpl.
  rewrite Hgf. simpl. rewrite Hrp. simpl. rewrite Hsp. simpl.
  destruct (py_eq (status d) (PInt 0)); reflexivity.
Qed.

End Runs.


(** ** The platform's contract *)

Lemma py_eq_refl (v : PyVal) : v <> PFloat NaN -> py_eq v v = true.
Proof.
  destruct v as [| b | z | [q | n |] | t]; simpl; intros Hnan;
    try reflexivity.
  - apply Qeq_bool_iff. reflexivity.
  - apply Qeq_bool_iff. reflexivity.
  - apply Qeq_bool_iff. reflexivity.
  - destruct n; reflexivity.
  - contradiction.
  - apply String.eqb_refl.
Qed.

Lemma py_eq_str (v : PyVal) (s : string) :
  py_eq v (PStr s) = true <-> v = PStr s.
Proof.
  split.
  - destruct v as [| b | z | [q | n |] | t]; simpl; try discriminate.
    intros Heq. apply String.eqb_eq in Heq. now subst.
  - intros ->. simpl. apply String.eqb_refl.
Qed.

Section Contract.

Context {B : Builtins} {K : Constants} {V : Pyevacalor}.


(** C2.  After every [update] that returns [True] the cached status
    code is the polled one; if it equals 0 the on-flag is [False] and
    [hvac_mode] is "off", and if it does not the on-flag is [True] and
    [hvac_mode] is "heat". *)
Theorem C2_on_flag_follows_status (s s' : State) :
  update s = (Return true, s') ->
  _device_status (self s') = status (device (world s'))
  /\ (py_eq (status (device (world s'))) (PInt 0) = true ->
        _on (self s') = false /\ hvac_mode (self s') = PStr "off")
  /\ (py_eq (status (device (world s'))) (PInt 0) = false ->
        _on (self s') = true /\ hvac_mode (self s') = PStr "heat").
Proof.
  intros Hupd. apply update_true_inv in Hupd. simpl in Hupd.
  destruct Hupd as (_ & _ & _ & _ & _ & Hstatus & _ & Hon & _).
  split; [exact Hstatus |].
  unfold hvac_mode. rewrite Hon.
  split; intros ->; split; reflexivity.
Qed.

(** C3.  If the handle's refresh raises a vendor error (unauthorized,
    connection or any other [EvaCalorError]), [update] returns [False]
    and the adapter object is exactly what it was: no attribute of the
    snapshot changes. *)
Theorem C3_failed_refresh_keeps_snapshot (s : State) (e : Exn) :
  fst (sdk_call CallUpdate (device (world s))) = Some e ->
  is_EvaCalorError e = true ->
  fst (update s) = Return false /\ self (snd (update s)) = self s.
Proof.
  intros Hcall Hvendor.
  rewrite (update_vendor_error s e Hcall Hvendor). split; reflexivity.
Qed.

(** C4.  When the cached human status is the string [str],
    [hvac_action] is the heat action for "ON", "CLEANING FIRE-POT" and
    "FLAME LIGHT", the off action for "OFF", and the idle action for
    every other string. *)
Theorem C4_hvac_action_classification (a : Adapter) (str : string) :
  _human_device_status a = PStr str ->
  (str = "ON" \/ str = "CLEANING FIRE-POT" \/ str = "FLAME LIGHT" ->
     hvac_action a = CURRENT_HVAC_HEAT)
  /\ (str = "OFF" -> hvac_action a = CURRENT_HVAC_OFF)
  /\ (str <> "ON" -> str <> "CLEANING FIRE-POT" ->
      str <> "FLAME LIGHT" -> str <> "OFF" ->
      hvac_action a = CURRENT_HVAC_IDLE).
Proof.
  intros Hstatus. unfold hvac_action. rewrite Hstatus.
  unfold dict_contains, dict_get, CURRENT_HVAC_MAP_EFESTO_HEAT.
  split; [|split].
  - intros [-> | [-> | ->]]; reflexivity.
  - intros ->. reflexivity.
  - intros Hon Hclean Hflame Hoff.
    rewrite !lookup_insert_ne by congruence.
    rewrite lookup_empty. reflexivity.
Qed.

(** C5.  [fan_mode] returns the cached power value when it is one of
    the five fan levels and the first level otherwise; [fan_modes] is
    the five levels in their order.  Both are total. *)
Theorem C5_fan_mode_membership (a : Adapter) :
  (py_in (_current_power a) [FAN_1; FAN_2; FAN_3; FAN_4; FAN_5] = true ->
     fan_mode a = _current_power a)
  /\ (py_in (_current_power a) [FAN_1; FAN_2; FAN_3; FAN_4; FAN_5] = false ->
        fan_mode a = FAN_1)
  /\ fan_modes = [FAN_1; FAN_2; FAN_3; FAN_4; FAN_5].
Proof.
  unfold fan_mode, fan_modes, FAN_MODES.
  split; [|split]; try reflexivity; intros ->; reflexivity.
Qed.

(** C6.  With the three credentials in the entry: if constructing
    the client or reading its device list raises a vendor error, setup
    returns [False] (it does not raise) and registers nothing; if both
    succeed and there is a first device, setup returns [True] having
    made exactly one [async_add_entities] call, with exactly one entity
    built from that device and [update_before_add] set; and setup
    returns [True] in no other way. *)
Theorem C6_setup_outcomes (entry_data : gmap string PyVal) (h : Host)
    (email password gen_uuid : PyVal) :
  entry_data !! CONF_EMAIL = Some email ->
  entry_data !! CONF_PASSWORD = Some password ->
  entry_data !! CONF_UUID = Some gen_uuid ->
  (forall e, is_EvaCalorError e = true ->
     evacalor email password gen_uuid = Raise e
     \/ (exists eva, evacalor email password gen_uuid = Return eva
           /\ devices eva = Raise e) ->
     fst (async_setup_entry entry_data h) = Return false
     /\ added (snd (async_setup_entry entry_data h)) = added h)
  /\ (forall eva d rest,
        evacalor email password gen_uuid = Return eva ->
        devices eva = Return (d :: rest) ->
        async_setup_entry entry_data h
        = (Return true,
           mkHost (added h ++ [([__init__ d], true)]) (host_log h)))
  /\ (forall h', async_setup_entry entry_data h = (Return true, h') ->
        exists d, added h' = added h ++ [([__init__ d], true)]).
Proof.
  intros Hemail Hpassword Huuid.
  unfold async_setup_entry, subscript, try_except, async_add_entities.
  unfold_monad. rewrite Hemail, Hpassword, Huuid. simpl.
  split; [|split].
  - intros e Hvendor [Hraise | (eva & Heva & Hraise)].
    + rewrite Hraise. simpl.
      destruct e; try discriminate Hvendor; split; reflexivity.
    + rewrite Heva. simpl. rewrite Hraise. simpl.
      destruct e; try discriminate Hvendor; split; reflexivity.
  - intros eva d rest Heva Hdevices.
    rewrite Heva. simpl. rewrite Hdevices. reflexivity.
  - intros h'.
    destruct (evacalor email password gen_uuid) as [eva | e]; simpl.
    + destruct (devices eva) as [[| d rest] | e]; simpl.
      * intros Hrun. discriminate Hrun.
      * intros Hrun. injection Hrun as <-. exists d. reflexivity.
      * destruct e; simpl; intros Hrun; discriminate Hrun.
    + destruct e; simpl; intros Hrun; discriminate Hrun.
Qed.

(** C7.  [set_hvac_mode("off")] makes exactly one call on the handle,
    [turn_off]; [set_hvac_mode("heat")] makes exactly one, [turn_on];
    any other value returns normally and leaves the whole state, and so
    the list of calls, untouched. *)
Theorem C7_set_hvac_mode_dispatch (s : State) :
  calls (world (snd (set_hvac_mode (PStr "off") s)))
    = calls (world s) ++ [CallTurnOff]
  /\ calls (world (snd (set_hvac_mode (PStr "heat") s)))
      = calls (world s) ++ [CallTurnOn]
  /\ (forall v, v <> PStr "off" -> v <> PStr "heat" ->
        set_hvac_mode v s = (Return tt, s)).
Proof.
  split; [|split].
  - apply guarded_call_calls.
  - apply guarded_call_calls.
  - intros v Hoff Hheat. unfold set_hvac_mode, HVAC_MODE_OFF, HVAC_MODE_HEAT.
    destruct (py_eq v (PStr "off")) eqn:Eoff.
    { apply py_eq_str in Eoff. contradiction. }
    destruct (py_eq v (PStr "heat")) eqn:Eheat.
    { apply py_eq_str in Eheat. contradiction. }
    reflexivity.
Qed.

Lemma py_mul2_total (v : PyVal) :
  v <> PNone -> exists raw, py_mul2 v = Return raw.
Proof. destruct v; [contradiction | simpl; eauto ..]. Qed.

Lemma guarded_call_outcome (c : VendorCall) (fmt : string) (s : State) :
  let run :=
    try_except (vendor c)
      [ (is_EvaCalorError, fun err => _LOGGER_error fmt [ArgErr err]) ] s in
  (fst (sdk_call c (device (world s))) = None -> fst run = Return tt)
  /\ (forall e, fst (sdk_call c (device (world s))) = Some e ->
        is_EvaCalorError e = true ->
        fst run = Return tt
        /\ log (world (snd run)) = log (world s) ++ [mkLog fmt [ArgErr e]]).
Proof.
  simpl. rewrite guarded_call_run. simpl. split.
  - intros ->. reflexivity.
  - intros e -> ->. split; reflexivity.
Qed.

(** C8.  [set_temperature] without a temperature (key missing, or
    [None]) returns with the state untouched; with one it assigns the
    doubled value to the handle, once.  [set_fan_mode(None)] returns
    with the state untouched; with a mode it assigns that very value to
    the handle's [set_power], once.  In both, a call that succeeds
    returns normally, and a vendor error is logged with the error as
    argument and the method still returns normally. *)
Theorem C8_setters_guard_and_swallow (kwargs : gmap string PyVal)
    (mode : PyVal) (s : State) :
  (kwargs_get kwargs ATTR_TEMPERATURE = PNone ->
     set_temperature kwargs s = (Return tt, s))
  /\ (kwargs_get kwargs ATTR_TEMPERATURE <> PNone ->
        exists raw,
          py_mul2 (kwargs_get kwargs ATTR_TEMPERATURE) = Return raw
          /\ calls (world (snd (set_temperature kwargs s)))
              = calls (world s) ++ [SetAirTemperature raw]
          /\ (fst (sdk_call (SetAirTemperature raw) (device (world s)))
                = None ->
              fst (set_temperature kwargs s) = Return tt)
          /\ (forall e,
                fst (sdk_call (SetAirTemperature raw) (device (world s)))
                  = Some e ->
                is_EvaCalorError e = true ->
                fst (set_temperature kwargs s) = Return tt
                /\ log (world (snd (set_temperature kwargs s)))
                    = log (world s) ++
                      [mkLog
                         "Failed to set temperature (original message: %s)"
                         [ArgErr e]]))
  /\ set_fan_mode PNone s = (Return tt, s)
  /\ (mode <> PNone ->
        calls (world (snd (set_fan_mode mode s)))
          = calls (world s) ++ [SetPower mode]
        /\ (fst (sdk_call (SetPower mode) (device (world s))) = None ->
              fst (set_fan_mode mode s) = Return tt)
        /\ (forall e,
              fst (sdk_call (SetPower mode) (device (world s))) = Some e ->
              is_EvaCalorError e = true ->
              fst (set_fan_mode mode s) = Return tt
              /\ log (world (snd (set_fan_mode mode s)))
                  = log (world s) ++
                    [mkLog
                       "Failed to set temperature (original message: %s)"
                       [ArgErr e]])).
Proof.
  split; [|split; [|split]].
  - intros Hnone. unfold set_temperature. rewrite Hnone. reflexivity.
  - intros Hsome.
    destruct (py_mul2_total _ Hsome) as [raw Hraw].
    exists raw. split; [exact Hraw |].
    rewrite (set_temperature_run kwargs s raw Hraw).
    split; [apply guarded_call_calls |].
    apply guarded_call_outcome.
  - reflexivity.
  - intros Hsome. rewrite (set_fan_mode_run mode s Hsome).
    split; [apply guarded_call_calls |].
    apply guarded_call_outcome.
Qed.

Lemma turn_off_self (s : State) : self (snd (turn_off s)) = self s.
Proof. apply guarded_call_self. Qed.

Lemma turn_on_self (s : State) : self (snd (turn_on s)) = self s.
Proof. apply guarded_call_self. Qed.

Lemma set_temperature_self (kwargs : gmap string PyVal) (s : State) :
  self (snd (set_temperature kwargs s)) = self s.
Proof.
  destruct (kwargs_get kwargs ATTR_TEMPERATURE) eqn:Ht.
  - unfold set_temperature. rewrite Ht. reflexivity.
  - erewrite set_temperature_run by (rewrite Ht; reflexivity).
    apply guarded_call_self.
  - erewrite set_temperature_run by (rewrite Ht; reflexivity).
    apply guarded_call_self.
  - erewrite set_temperature_run by (rewrite Ht; reflexivity).
    apply guarded_call_self.
  - erewrite set_temperature_run by (rewrite Ht; reflexivity).
    apply guarded_call_self.
Qed.

Lemma set_fan_mode_self (mode : PyVal) (s : State) :
  self (snd (set_fan_mode mode s)) = self s.
Proof.
  destruct mode; [reflexivity | ..];
    (rewrite set_fan_mode_run by discriminate; apply guarded_call_self).
Qed.

Lemma set_hvac_mode_self (mode : PyVal) (s : State) :
  self (snd (set_hvac_mode mode s)) = self s.
Proof.
  unfold set_hvac_mode.
  destruct (py_eq mode HVAC_MODE_OFF); [apply turn_off_self |].
  destruct (py_eq mode HVAC_MODE_HEAT); [apply turn_on_self |].
  reflexivity.
Qed.

(** C9.  No command changes the adapter object, whatever the SDK
    answers (success, a vendor error, or any other exception): after
    [turn_on], [turn_off], [set_temperature], [set_fan_mode] and
    [set_hvac_mode] every attribute of the snapshot, the name and the
    device id are what they were. *)
Theorem C9_commands_keep_snapshot (s : State) :
  self (snd (turn_on s)) = self s
  /\ self (snd (turn_off s)) = self s
  /\ (forall kwargs, self (snd (set_temperature kwargs s)) = self s)
  /\ (forall mode, self (snd (set_fan_mode mode s)) = self s)
  /\ (forall mode, self (snd (set_hvac_mode mode s)) = self s).
Proof.
  repeat split.
  - apply turn_on_self.
  - apply turn_off_self.
  - intros kwargs. apply set_temperature_self.
  - intros mode. apply set_fan_mode_self.
  - intros mode. apply set_hvac_mode_self.
Qed.

Lemma hvac_map_values (str : string) (v : PyVal) :
  CURRENT_HVAC_MAP_EFESTO_HEAT !! str = Some v ->
  v = CURRENT_HVAC_HEAT \/ v = CURRENT_HVAC_OFF.
Proof.
  unfold CURRENT_HVAC_MAP_EFESTO_HEAT. intros Hlook.
  apply lookup_insert_Some in Hlook as [[_ <-] | [_ Hlook]]; [now left |].
  apply lookup_insert_Some in Hlook as [[_ <-] | [_ Hlook]]; [now left |].
  apply lookup_insert_Some in Hlook as [[_ <-] | [_ Hlook]]; [now left |].
  apply lookup_insert_Some in Hlook as [[_ <-] | [_ Hlook]]; [now right |].
  rewrite lookup_empty in Hlook. discriminate Hlook.
Qed.

Lemma hvac_action_range (a : Adapter) :
  In (hvac_action a)
    [CURRENT_HVAC_HEAT; CURRENT_HVAC_IDLE; CURRENT_HVAC_OFF].
Proof.
  unfold hvac_action, dict_contains, dict_get.
  destruct (_human_device_status a) as [| b | z | q | str];
    try (simpl; tauto).
  destruct (CURRENT_HVAC_MAP_EFESTO_HEAT !! str) as [v|] eqn:Hlook.
  - rewrite bool_decide_eq_true_2 by eauto. simpl.
    destruct (hvac_map_values str v Hlook) as [-> | ->]; tauto.
  - rewrite bool_decide_eq_false_2 by (intros [v Hv]; discriminate Hv).
    simpl. tauto.
Qed.

Lemma fan_mode_range (a : Adapter) :
  In (fan_mode a) fan_modes \/ py_in (fan_mode a) fan_modes = true.
Proof.
  unfold fan_mode, fan_modes.
  destruct (py_in (_current_power a) FAN_MODES) eqn:Hin.
  - right. exact Hin.
  - left. unfold FAN_MODES. simpl. tauto.
Qed.

Lemma update_not_true_keeps_modes (s : State) :
  fst (update s) <> Return true ->
  _on (self (snd (update s))) = _on (self s)
  /\ _current_power (self (snd (update s))) = _current_power (self s).
Proof.
  update_paths s; intros Hnot; try (split; reflexivity);
    exfalso; apply Hnot; reflexivity.
Qed.

Lemma never_succeeded_modes (ops : list Op) (s : State) :
  never_succeeded ops s = true ->
  _on (self (run_ops ops s)) = _on (self s)
  /\ _current_power (self (run_ops ops s)) = _current_power (self s).
Proof.
  revert s. induction ops as [| o rest IH]; intros s Hnever; [now split |].
  simpl in Hnever. apply andb_true_iff in Hnever as [Hhead Hrest].
  unfold run_ops in *. simpl.
  destruct (IH _ Hrest) as [Hon Hpower]. rewrite Hon, Hpower.
  assert (Hcmd : forall s', self s' = self s ->
            _on (self s') = _on (self s)
            /\ _current_power (self s') = _current_power (self s)).
  { intros s' ->. now split. }
  destruct o; simpl.
  - apply update_not_true_keeps_modes.
    destruct (fst (update s)) as [[|] | e]; [discriminate Hhead | ..];
      discriminate.
  - apply Hcmd, turn_on_self.
  - apply Hcmd, turn_off_self.
  - apply Hcmd, set_temperature_self.
  - apply Hcmd, set_fan_mode_self.
  - apply Hcmd, set_hvac_mode_self.
Qed.

Lemma update_refresh_raised_self (s : State) (e : Exn) :
  fst (sdk_call CallUpdate (device (world s))) = Some e ->
  self (snd (update s)) = self s.
Proof.
  intros Hcall. destruct (is_EvaCalorError e) eqn:Hclass.
  - now rewrite (update_vendor_error s e Hcall Hclass).
  - now rewrite (update_other_error s e Hcall Hclass).
Qed.

Lemma unpolled_self (ops : list Op) (s : State) :
  unpolled ops s = true -> self (run_ops ops s) = self s.
Proof.
  revert s. induction ops as [| o rest IH]; intros s Hun; [reflexivity |].
  simpl in Hun. apply andb_true_iff in Hun as [Hhead Hrest].
  unfold run_ops in *. simpl. rewrite (IH _ Hrest).
  destruct o; simpl.
  - destruct (fst (sdk_call CallUpdate (device (world s)))) as [e|] eqn:Hc;
      [| discriminate Hhead].
    exact (update_refresh_raised_self s e Hc).
  - apply turn_on_self.
  - apply turn_off_self.
  - apply set_temperature_self.
  - apply set_fan_mode_self.
  - apply set_hvac_mode_self.
Qed.

(** C10.  In every reachable state [hvac_mode] is one of the two
    entries of [hvac_modes], [fan_mode] is one of the five entries of
    [fan_modes] (it is an entry, or Python's [in] finds it there) and
    [hvac_action] is one of the heat, idle and off actions.  As long as
    no refresh of the handle has returned (the fresh adapter, and any
    commands and any updates whose refresh raised after it) the adapter
    reports mode "off", action idle, no current and no target
    temperature, and, [None] not being a fan level, the first fan level.
    As long as no update has returned [True], it still reports mode "off"
    and the first fan level. *)
Theorem C10_getter_ranges_and_initial_report :
  (forall s, reachable s ->
     length hvac_modes = 2%nat
     /\ In (hvac_mode (self s)) hvac_modes
     /\ length fan_modes = 5%nat
     /\ (In (fan_mode (self s)) fan_modes
         \/ py_in (fan_mode (self s)) fan_modes = true)
     /\ In (hvac_action (self s))
          [CURRENT_HVAC_HEAT; CURRENT_HVAC_IDLE; CURRENT_HVAC_OFF])
  /\ (forall d ops,
        unpolled ops (fresh d) = true ->
        py_in PNone FAN_MODES = false ->
        let a := self (run_ops ops (fresh d)) in
        hvac_mode a = PStr "off"
        /\ fan_mode a = FAN_1
        /\ hvac_action a = CURRENT_HVAC_IDLE
        /\ current_temperature a = PNone
        /\ target_temperature a = PNone)
  /\ (forall d ops,
        never_succeeded ops (fresh d) = true ->
        py_in PNone FAN_MODES = false ->
        let a := self (run_ops ops (fresh d)) in
        hvac_mode a = PStr "off" /\ fan_mode a = FAN_1).
Proof.
  split; [| split].
  - intros s _. repeat split.
    + unfold hvac_mode, hvac_modes. destruct (_on (self s)); simpl; tauto.
    + apply fan_mode_range.
    + apply hvac_action_range.
  - intros d ops Hun Hnone a. subst a.
    rewrite (unpolled_self ops (fresh d) Hun).
    change (self (fresh d)) with (__init__ d).
    repeat split.
    unfold fan_mode, __init__. cbn [_current_power].
    now rewrite Hnone.
  - intros d ops Hnever Hnone a. subst a.
    destruct (never_succeeded_modes ops (fresh d) Hnever) as [Hon Hpower].
    unfold hvac_mode, fan_mode. rewrite Hon, Hpower.
    change (self (fresh d)) with (__init__ d).
    unfold __init__. cbn [_on _current_power].
    rewrite Hnone. split; reflexivity.
Qed.

End Contract.


(** ** The contract on the sample instances *)


(** Polling the stove while it is off, and after it was turned on. *)
Lemma C2_on_flag_on_stove :
  let off := snd (update (B:=sample_builtins) (V:=stove) (fresh sample_device)) in
  let on :=
    snd (update (B:=sample_builtins) (V:=stove)
           (snd (turn_on (V:=stove) (fresh sample_device)))) in
  (_on (self off) = false /\ hvac_mode (self off) = PStr "off")
  /\ (_on (self on) = true /\ hvac_mode (self on) = PStr "heat").
Proof.
  intros off on. split.
  - destruct (C2_on_flag_follows_status
                (B:=sample_builtins) (V:=stove) (fresh sample_device) off)
      as (_ & Hzero & _).
    + vm_compute. reflexivity.
    + apply Hzero. vm_compute. reflexivity.
  - destruct (C2_on_flag_follows_status
                (B:=sample_builtins) (V:=stove)
                (snd (turn_on (V:=stove) (fresh sample_device))) on)
      as (_ & _ & Hnonzero).
    + vm_compute. reflexivity.
    + apply Hnonzero. vm_compute. reflexivity.
Defined.

(** A poll of an unreachable stove. *)
Lemma C3_failed_refresh_on_offline_stove :
  let V := failing (ConnectionError "explanation") in
  fst (update (B:=sample_builtins) (V:=V) (fresh sample_device))
    = Return false
  /\ self (snd (update (B:=sample_builtins) (V:=V) (fresh sample_device)))
     = __init__ sample_device.
Proof.
  intros V.
  apply (C3_failed_refresh_keeps_snapshot
           (B:=sample_builtins) (V:=V) (fresh sample_device)
           (ConnectionError "explanation")).
  - reflexivity.
  - reflexivity.
Defined.

(** "STANDBY" is idle, "FLAME LIGHT" is heat, "OFF" is off. *)
Lemma C4_classification_samples :
  let cached str := set__human_device_status (PStr str) (__init__ sample_device) in
  hvac_action (K:=sample_constants) (cached "STANDBY") = PStr "idle"
  /\ hvac_action (K:=sample_constants) (cached "FLAME LIGHT") = PStr "heating"
  /\ hvac_action (K:=sample_constants) (cached "OFF") = PStr "off".
Proof.
  intros cached. split; [|split].
  - destruct (C4_hvac_action_classification
                (K:=sample_constants) (cached "STANDBY") "STANDBY")
      as (_ & _ & Hidle); [reflexivity |].
    apply Hidle; discriminate.
  - destruct (C4_hvac_action_classification
                (K:=sample_constants) (cached "FLAME LIGHT") "FLAME LIGHT")
      as (Hheat & _ & _); [reflexivity |].
    apply Hheat. right. right. reflexivity.
  - destruct (C4_hvac_action_classification
                (K:=sample_constants) (cached "OFF") "OFF")
      as (_ & Hoff & _); [reflexivity |].
    apply Hoff. reflexivity.
Defined.

(** Level 3 is reported as it is; power 9 is reported as the first level. *)
Lemma C5_fan_mode_samples :
  let cached v := set__current_power v (__init__ sample_device) in
  fan_mode (K:=sample_constants) (cached (PInt 3)) = PInt 3
  /\ fan_mode (K:=sample_constants) (cached (PInt 9)) = PInt 1.
Proof.
  intros cached. split.
  - destruct (C5_fan_mode_membership (K:=sample_constants) (cached (PInt 3)))
      as (Hin & _ & _).
    apply Hin. vm_compute. reflexivity.
  - destruct (C5_fan_mode_membership (K:=sample_constants) (cached (PInt 9)))
      as (_ & Hout & _).
    apply Hout. vm_compute. reflexivity.
Defined.

(** Setup with rejected credentials registers nothing; with a client that
    cannot list its devices likewise; with the stove it registers the one
    entity. *)
Lemma C6_setup_samples :
  let rejected := failing (UnauthorizedError "explanation") in
  let unlisted := failing_devices (EvaCalorError "explanation") in
  (fst (async_setup_entry (K:=sample_constants) (V:=rejected)
          sample_entry sample_host) = Return false
   /\ added (snd (async_setup_entry (K:=sample_constants) (V:=rejected)
                   sample_entry sample_host)) = [])
  /\ (fst (async_setup_entry (K:=sample_constants) (V:=unlisted)
             sample_entry sample_host) = Return false
      /\ added (snd (async_setup_entry (K:=sample_constants) (V:=unlisted)
                      sample_entry sample_host)) = [])
  /\ async_setup_entry (K:=sample_constants) (V:=stove)
       sample_entry sample_host
     = (Return true, mkHost [([__init__ sample_device], true)] []).
Proof.
  intros rejected unlisted. split; [|split].
  - destruct (C6_setup_outcomes (K:=sample_constants) (V:=rejected)
                sample_entry sample_host (PStr "test-username")
                (PStr "test-password") (PStr "AABBCCDDEEFF"))
      as (Hfail & _ & _);
      [vm_compute; reflexivity | vm_compute; reflexivity
      | vm_compute; reflexivity |].
    apply (Hfail (UnauthorizedError "explanation")); [reflexivity |].
    left. reflexivity.
  - destruct (C6_setup_outcomes (K:=sample_constants) (V:=unlisted)
                sample_entry sample_host (PStr "test-username")
                (PStr "test-password") (PStr "AABBCCDDEEFF"))
      as (Hfail & _ & _);
      [vm_compute; reflexivity | vm_compute; reflexivity
      | vm_compute; reflexivity |].
    apply (Hfail (EvaCalorError "explanation")); [reflexivity |].
    right. exists (mkEva (Raise (EvaCalorError "explanation"))).
    split; reflexivity.
  - destruct (C6_setup_outcomes (K:=sample_constants) (V:=stove)
                sample_entry sample_host (PStr "test-username")
                (PStr "test-password") (PStr "AABBCCDDEEFF"))
      as (_ & Hok & _);
      [vm_compute; reflexivity | vm_compute; reflexivity
      | vm_compute; reflexivity |].
    apply (Hok (mkEva (Return [sample_device])) sample_device []);
      reflexivity.
Defined.

(** "cool" is not a mode of this platform: nothing happens. *)
Lemma C7_unknown_mode_on_stove :
  set_hvac_mode (V:=stove) (PStr "cool") (fresh sample_device)
  = (Return tt, fresh sample_device).
Proof.
  destruct (C7_set_hvac_mode_dispatch (V:=stove) (fresh sample_device))
    as (_ & _ & Hother).
  apply Hother; discriminate.
Defined.

(** The setters on a stove that cannot be reached: nothing without a
    value; with one, the call is made, the error logged, the method
    returns. *)
Lemma C8_setters_on_offline_stove :
  let V := failing (ConnectionError "explanation") in
  let s := fresh sample_device in
  let kwargs : gmap string PyVal := {[ "temperature" := PInt 21 ]} in
  set_temperature (K:=sample_constants) (V:=V) ∅ s = (Return tt, s)
  /\ (calls (world (snd (set_temperature (K:=sample_constants) (V:=V)
                           kwargs s)))
        = [SetAirTemperature (PInt 42)]
      /\ fst (set_temperature (K:=sample_constants) (V:=V) kwargs s)
         = Return tt)
  /\ (calls (world (snd (set_fan_mode (V:=V) (PInt 3) s)))
        = [SetPower (PInt 3)]
      /\ fst (set_fan_mode (V:=V) (PInt 3) s) = Return tt
      /\ log (world (snd (set_fan_mode (V:=V) (PInt 3) s)))
         = [mkLog "Failed to set temperature (original message: %s)"
              [ArgErr (ConnectionError "explanation")]]).
Proof.
  intros V s kwargs. split; [|split].
  - destruct (C8_setters_guard_and_swallow
                (K:=sample_constants) (V:=V) ∅ PNone s) as (Hnone & _).
    apply Hnone. vm_compute. reflexivity.
  - destruct (C8_setters_guard_and_swallow
                (K:=sample_constants) (V:=V) kwargs PNone s)
      as (_ & Hsome & _).
    destruct Hsome as (raw & Hraw & Hcalls & _ & Herr).
    { vm_compute. discriminate. }
    assert (Heq : raw = PInt 42).
    { vm_compute in Hraw. injection Hraw as <-. reflexivity. }
    subst raw. split; [exact Hcalls |].
    apply (Herr (ConnectionError "explanation")); reflexivity.
  - destruct (C8_setters_guard_and_swallow
                (K:=sample_constants) (V:=V) ∅ (PInt 3) s)
      as (_ & _ & _ & Hmode).
    destruct Hmode as (Hcalls & _ & Herr); [discriminate |].
    split; [exact Hcalls |].
    apply (Herr (ConnectionError "explanation")); reflexivity.
Defined.

(** The stove after a command and two polls is in range; an entity whose
    stove never answered still reports its initial values; an entity
    whose only poll raised at the smoke temperature still reports mode
    "off" and the first fan level. *)
Lemma C10_report_samples :
  let polled :=
    run_ops (B:=sample_builtins) (K:=sample_constants) (V:=stove)
      [OpUpdate; OpSetHvacMode (PStr "heat"); OpUpdate]
      (fresh sample_device) in
  let waiting :=
    run_ops (B:=sample_builtins) (K:=sample_constants)
      (V:=failing (ConnectionError "explanation"))
      [OpTurnOn; OpUpdate; OpSetFanMode (PInt 2)] (fresh sample_device) in
  let botched :=
    run_ops (B:=sample_builtins) (K:=sample_constants) (V:=stove)
      [OpUpdate] (fresh smokeless_device) in
  (In (fan_mode (K:=sample_constants) (self polled))
      (fan_modes (K:=sample_constants))
   \/ py_in (fan_mode (K:=sample_constants) (self polled))
        (fan_modes (K:=sample_constants)) = true)
  /\ (hvac_mode (self waiting) = PStr "off"
      /\ fan_mode (K:=sample_constants) (self waiting) = PInt 1
      /\ hvac_action (K:=sample_constants) (self waiting) = PStr "idle"
      /\ current_temperature (self waiting) = PNone
      /\ target_temperature (self waiting) = PNone)
  /\ (hvac_mode (self botched) = PStr "off"
      /\ fan_mode (K:=sample_constants) (self botched) = PInt 1).
Proof.
  intros polled waiting botched.
  destruct (C10_getter_ranges_and_initial_report
              (B:=sample_builtins) (K:=sample_constants) (V:=stove))
    as (Hrange & _ & Hnever).
  destruct (C10_getter_ranges_and_initial_report
              (B:=sample_builtins) (K:=sample_constants)
              (V:=failing (ConnectionError "explanation")))
    as (_ & Hinitial & _).
  split; [| split].
  - destruct (Hrange polled) as (_ & _ & _ & Hfan & _); [| exact Hfan].
    exists sample_device,
      [OpUpdate; OpSetHvacMode (PStr "heat"); OpUpdate].
    reflexivity.
  - apply (Hinitial sample_device
             [OpTurnOn; OpUpdate; OpSetFanMode (PInt 2)]).
    + vm_compute. reflexivity.
    + vm_compute. reflexivity.
  - apply (Hnever smokeless_device [OpUpdate]).
    + vm_compute. reflexivity.
    + vm_compute. reflexivity.
Defined.

(** C10, the initial report before any update has returned [True]: it
    does not survive a poll that raises half-way.  The smokeless stove's
    refresh returns, the status, the two temperatures and the human
    status are assigned, then [float(None)] raises [TypeError]: no update
    has returned [True], yet the adapter reports a current and a target
    temperature and the heat action. *)
Lemma C10_partial_poll_counterexample :
  let start := fresh smokeless_device in
  let s :=
    run_ops (B:=sample_builtins) (K:=sample_constants) (V:=stove)
      [OpUpdate] start in
  fst (update (B:=sample_builtins) (V:=stove) start) = Raise TypeError
  /\ never_succeeded (B:=sample_builtins) (K:=sample_constants) (V:=stove)
       [OpUpdate] start = true
  /\ py_in PNone (FAN_MODES (K:=sample_constants)) = false
  /\ current_temperature (self s) = PFloat (39 # 2)
  /\ target_temperature (self s) = PFloat (21 # 1)
  /\ hvac_action (K:=sample_constants) (self s) = PStr "heating"
  /\ current_temperature (self s) <> PNone
  /\ target_temperature (self s) <> PNone
  /\ hvac_action (K:=sample_constants) (self s)
     <> CURRENT_HVAC_IDLE (Constants:=sample_constants).
Proof.
  intros start s. repeat split; try (vm_compute; reflexivity);
    vm_compute; discriminate.
Qed.



(** ** Further properties of the poll *)

Section Poll.

Context {B : Builtins} {K : Constants} {V : Pyevacalor}.

(** X1.  Whatever happens, success, a vendor error, another exception
    or a reading that does not convert, a poll makes exactly one call on
    the handle, the refresh, and leaves the handle as the SDK answered;
    it logs one record when the refresh raised a vendor error and nothing
    otherwise. *)
Theorem update_one_call_one_record (s : State) :
  calls (world (snd (update s))) = calls (world s) ++ [CallUpdate]
  /\ device (world (snd (update s)))
     = snd (sdk_call CallUpdate (device (world s)))
  /\ log (world (snd (update s)))
     = log (world s) ++
       match fst (sdk_call CallUpdate (device (world s))) with
       | Some e =>
           if is_EvaCalorError e then [update_error_record (self s) e]
           else []
       | None => []
       end.
Proof.
  update_paths s; rewrite ?app_nil_r; repeat split; reflexivity.
Qed.

(** X2.  The value a poll returns.  It returns [False] exactly when the
    refresh raised a vendor error, and [True] exactly when the refresh
    returned and all five readings convert; in every other case it
    raises. *)
Theorem update_return_value (s : State) :
  let answer := sdk_call CallUpdate (device (world s)) in
  (fst (update s) = Return false
   <-> exists e, fst answer = Some e /\ is_EvaCalorError e = true)
  /\ (fst (update s) = Return true
      <-> fst answer = None
          /\ (exists af, py_float (air_temperature (snd answer)) = Return af)
          /\ (exists tf,
                py_float (set_air_temperature (snd answer)) = Return tf)
          /\ (exists gf, py_float (gas_temperature (snd answer)) = Return gf)
          /\ (exists rp, py_int (real_power (snd answer)) = Return rp)
          /\ (exists sp, py_int (set_power (snd answer)) = Return sp)).
Proof.
  simpl. split; split.
  - intros Hfalse.
    destruct (fst (sdk_call CallUpdate (device (world s)))) as [e|] eqn:Hc.
    + destruct (is_EvaCalorError e) eqn:Hclass; [eauto |].
      rewrite (update_other_error s e Hc Hclass) in Hfalse.
      discriminate Hfalse.
    + exfalso. revert Hfalse Hc. update_paths s; intros Hf Hc;
        discriminate.
  - intros (e & Hc & Hclass).
    now rewrite (update_vendor_error s e Hc Hclass).
  - intros Htrue. destruct (update s) as [r s'] eqn:Hrun.
    simpl in Htrue. subst r. apply update_true_inv in Hrun. simpl in Hrun.
    destruct Hrun as (Hc & _ & _ & _ & _ & _ & _ & _ & Ha & Ht & Hg & Hr & Hs).
    rewrite Hc. simpl.
    destruct Ha as (af & Ha & _). destruct Ht as (tf & Ht & _).
    destruct Hg as (gf & Hg & _). destruct Hr as (rp & Hr & _).
    destruct Hs as (sp & Hs & _). repeat split; eauto.
  - intros (Hc & (af & Ha) & (tf & Ht) & (gf & Hg) & (rp & Hr) & (sp & Hs)).
    destruct (sdk_call CallUpdate (device (world s))) as [r d] eqn:Hcall.
    simpl in *. subst r.
    now rewrite (update_true s d af tf gf rp sp Hcall Ha Ht Hg Hr Hs).
Qed.

(** X3.  A poll that returns [True] overwrites the snapshot wholesale:
    what it leaves depends on the refreshed handle and on the adapter's
    id and name only, not on the snapshot that was there before. *)
Theorem update_overwrites_wholesale (s s' t t' : State) :
  update s = (Return true, s') ->
  update t = (Return true, t') ->
  device (world s') = device (world t') ->
  _device_id (self s) = _device_id (self t) ->
  _name (self s) = _name (self t) ->
  self s' = self t'.
Proof.
  intros Hs Ht Hdev Hid Hname.
  apply update_true_inv in Hs. apply update_true_inv in Ht. simpl in *.
  destruct Hs as (_ & _ & _ & Hid1 & Hn1 & Hst1 & Hh1 & Hon1
                  & (a1 & Ha1 & Hc1) & (b1 & Hb1 & Ht1) & (g1 & Hg1 & Hsm1)
                  & (r1 & Hr1 & Hrp1) & (p1 & Hp1 & Hcp1)).
  destruct Ht as (_ & _ & _ & Hid2 & Hn2 & Hst2 & Hh2 & Hon2
                  & (a2 & Ha2 & Hc2) & (b2 & Hb2 & Ht2) & (g2 & Hg2 & Hsm2)
                  & (r2 & Hr2 & Hrp2) & (p2 & Hp2 & Hcp2)).
  rewrite Hdev in *.
  rewrite Ha2 in Ha1. injection Ha1 as <-.
  rewrite Hb2 in Hb1. injection Hb1 as <-.
  rewrite Hg2 in Hg1. injection Hg1 as <-.
  rewrite Hr2 in Hr1. injection Hr1 as <-.
  rewrite Hp2 in Hp1. injection Hp1 as <-.
  destruct (self s') as [i1 o1 ds1 hs1 ct1 tt1 sm1 rp1 cp1 n1].
  destruct (self t') as [i2 o2 ds2 hs2 ct2 tt2 sm2 rp2 cp2 n2].
  simpl in *. congruence.
Qed.

(** X4.  A poll that raises, whether at the refresh or at a conversion,
    leaves the on-flag and the cached power level alone: [hvac_mode] and
    [fan_mode] report what they reported before. *)
Theorem update_raise_keeps_modes (s : State) (e : Exn) :
  fst (update s) = Raise e ->
  hvac_mode (self (snd (update s))) = hvac_mode (self s)
  /\ fan_mode (self (snd (update s))) = fan_mode (self s).
Proof.
  unfold hvac_mode, fan_mode.
  update_paths s; intros Hraise; try discriminate Hraise;
    split; reflexivity.
Qed.

End Poll.


(** ** Invariants of the entity's life *)

Section Life.

Context {B : Builtins} {K : Constants} {V : Pyevacalor}.

Lemma command_self (o : Op) (s : State) :
  o <> OpUpdate -> self (run_op o s) = self s.
Proof.
  destruct o; simpl; intros Hcmd.
  - contradiction.
  - apply turn_on_self.
  - apply turn_off_self.
  - apply set_temperature_self.
  - apply set_fan_mode_self.
  - apply set_hvac_mode_self.
Qed.

Lemma update_identity (s : State) :
  _device_id (self (snd (update s))) = _device_id (self s)
  /\ _name (self (snd (update s))) = _name (self s).
Proof. update_paths s; split; reflexivity. Qed.

Lemma run_op_identity (o : Op) (s : State) :
  _device_id (self (run_op o s)) = _device_id (self s)
  /\ _name (self (run_op o s)) = _name (self s).
Proof.
  destruct o; try (rewrite command_self by discriminate; now split).
  apply update_identity.
Qed.

(** X5.  The identity of the entity is fixed at construction: after any
    sequence of polls and commands, whatever the SDK answered and
    whatever the handle now says its id and name are, [unique_id], [name]
    and the identifiers in [device_info] are those of the handle the
    entity was built from. *)
Theorem identity_fixed_at_construction {HC : HostConstants}
    (d : Device) (ops : list Op) :
  let s := run_ops ops (fresh d) in
  unique_id (self s) = id_device d
  /\ EvaCalorHeatingDevice.name (self s) = name d
  /\ identifiers (EvaCalorHeatingDevice.device_info s)
     = [(DOMAIN, id_device d)].
Proof.
  simpl. unfold EvaCalorHeatingDevice.device_info, unique_id,
    EvaCalorHeatingDevice.name. simpl.
  assert (Hinv : forall s,
            _device_id (self (run_ops ops s)) = _device_id (self s)
            /\ _name (self (run_ops ops s)) = _name (self s)).
  { induction ops as [| o rest IH]; intros s; [now split |].
    unfold run_ops in *. simpl.
    destruct (IH (run_op o s)) as [Hid Hname].
    destruct (run_op_identity o s) as [Hid' Hname'].
    split; congruence. }
  destruct (Hinv (fresh d)) as [Hid Hname].
  rewrite Hid, Hname. repeat split.
Qed.

Lemma update_typed (s : State) :
  snapshot_typed (self s) = true ->
  snapshot_typed (self (snd (update s))) = true.
Proof.
  unfold snapshot_typed. intros Htyped.
  repeat (apply andb_true_iff in Htyped as [Htyped ?]).
  update_paths s;
    repeat (apply andb_true_iff; split); simpl; auto.
Qed.

Lemma run_op_typed (o : Op) (s : State) :
  snapshot_typed (self s) = true ->
  snapshot_typed (self (run_op o s)) = true.
Proof.
  destruct o; try (rewrite command_self by discriminate; auto).
  apply update_typed.
Qed.

Lemma reachable_typed (s : State) :
  reachable s -> snapshot_typed (self s) = true.
Proof.
  intros (d & ops & ->).
  assert (Hinv : forall s0, snapshot_typed (self s0) = true ->
                   snapshot_typed (self (run_ops ops s0)) = true).
  { induction ops as [| o rest IH]; intros s0 H0; [exact H0 |].
    unfold run_ops in *. simpl. apply IH. now apply run_op_typed. }
  apply Hinv. reflexivity.
Qed.

(** X6.  In every reachable state each converted attribute is [None] or
    has the type its conversion gives it: the three temperatures are
    floats, the two power values are integers.  This holds also after
    polls that raised half-way. *)
Theorem snapshot_types_invariant (s : State) :
  reachable s ->
  none_or_float (current_temperature (self s)) = true
  /\ none_or_float (target_temperature (self s)) = true
  /\ none_or_float (_smoke_temperature (self s)) = true
  /\ none_or_int (_real_power (self s)) = true
  /\ none_or_int (_current_power (self s)) = true.
Proof.
  intros Hreach. apply reachable_typed in Hreach.
  unfold snapshot_typed in Hreach.
  repeat (apply andb_true_iff in Hreach as [Hreach ?]).
  unfold current_temperature, target_temperature. auto.
Qed.

Lemma update_false_self (s : State) :
  fst (update s) = Return false -> self (snd (update s)) = self s.
Proof.
  update_paths s; intros Hfalse; try discriminate Hfalse; reflexivity.
Qed.

Lemma update_true_image (s : State) :
  fst (update s) = Return true ->
  image_of (self (snd (update s))) (device (world (snd (update s)))).
Proof.
  intros Htrue. destruct (update s) as [r s'] eqn:Hrun.
  simpl in *. subst r. apply update_true_inv in Hrun. simpl in Hrun.
  unfold image_of. tauto.
Qed.

Lemma command_never_succeeded (o : Op) (rest : list Op) (s : State) :
  o <> OpUpdate ->
  never_succeeded (o :: rest) s = never_succeeded rest (run_op o s).
Proof. destruct o; simpl; intros Hcmd; [contradiction | reflexivity ..]. Qed.

(** X7.  As long as every poll returns (with [True] or [False]), the
    snapshot is never a mixture.  Either no poll has returned [True] and
    the adapter is the one [__init__] built; or there is a last poll that
    returned [True], and the snapshot is the complete image of the state
    the handle was in when that poll's refresh returned: the status code,
    the on-flag, the human status, the temperatures and the power values
    all stem from that one answer of the SDK. *)
Theorem snapshot_from_one_poll (d : Device) (ops : list Op) :
  polls_return ops (fresh d) = true ->
  let a := self (run_ops ops (fresh d)) in
  (never_succeeded ops (fresh d) = true /\ a = __init__ d)
  \/ (exists before after,
        ops = before ++ OpUpdate :: after
        /\ let s := run_ops before (fresh d) in
           fst (update s) = Return true
           /\ never_succeeded after (snd (update s)) = true
           /\ image_of a (snd (sdk_call CallUpdate (device (world s))))).
Proof.
  simpl.
  assert (Hinv : forall s0,
            polls_return ops s0 = true ->
            (never_succeeded ops s0 = true
             /\ self (run_ops ops s0) = self s0)
            \/ (exists before after,
                  ops = before ++ OpUpdate :: after
                  /\ fst (update (run_ops before s0)) = Return true
                  /\ never_succeeded after
                       (snd (update (run_ops before s0))) = true
                  /\ image_of (self (run_ops ops s0))
                       (snd (sdk_call CallUpdate
                               (device (world (run_ops before s0))))))).
  { induction ops as [| o rest IH]; intros s0 Hret; [left; now split |].
    simpl in Hret. apply andb_true_iff in Hret as [Hhead Hrest].
    destruct (IH (run_op o s0) Hrest)
      as [[Hnever Hself] | (before & after & -> & Htrue & Hafter & Himage)].
    - destruct o;
        try (left; rewrite command_never_succeeded by discriminate;
             split; [exact Hnever |];
             unfold run_ops in *; cbn [fold_left]; rewrite Hself;
             apply command_self; discriminate).
      unfold run_ops in *. simpl in *.
      destruct (fst (update s0)) as [[|] | e] eqn:Hres.
      + right. exists [], rest. simpl.
        split; [reflexivity | split; [exact Hres | split; [exact Hnever |]]].
        rewrite Hself.
        replace (snd (sdk_call CallUpdate (device (world s0))))
          with (device (world (snd (update s0)))).
        * now apply update_true_image.
        * clear. update_paths s0; reflexivity.
      + left. split; [exact Hnever |].
        rewrite Hself. now apply update_false_self.
      + discriminate Hhead.
    - right. exists (o :: before), after.
      split; [reflexivity | split; [exact Htrue | split; [exact Hafter |]]].
      exact Himage. }
  intros Hret. destruct (Hinv (fresh d) Hret) as [[Hn Hs] | Hlast].
  - left. split; [exact Hn | exact Hs].
  - right. exact Hlast.
Qed.

(** X8.  If the five fan levels are strings, then in every reachable
    state [fan_mode] is the first level: the cached power is [None] or
    the integer [int(...)] produced, and neither compares equal to a
    string. *)
Theorem string_levels_never_match (s : State) :
  reachable s ->
  (forall v, In v FAN_MODES -> exists str, v = PStr str) ->
  fan_mode (self s) = FAN_1.
Proof.
  intros Hreach Hstr. apply reachable_typed in Hreach.
  unfold snapshot_typed in Hreach.
  apply andb_true_iff in Hreach as [_ Hpower].
  unfold fan_mode.
  assert (Hout : py_in (_current_power (self s)) FAN_MODES = false).
  { unfold py_in. apply not_true_is_false. intros Hin.
    apply existsb_exists in Hin as (v & Hv & Heq).
    destruct (Hstr v Hv) as [str ->].
    destruct (_current_power (self s)); simpl in *; discriminate. }
  now rewrite Hout.
Qed.


End Life.


(** ** Further properties of the commands *)

Section Commands.

Context {B : Builtins} {K : Constants} {V : Pyevacalor}.

Lemma guarded_call_trace (c : VendorCall) (fmt : string) (s : State) :
  let s' :=
    snd (try_except (vendor c)
           [ (is_EvaCalorError, fun err => _LOGGER_error fmt [ArgErr err]) ]
           s) in
  exists ls, calls (world s') = calls (world s) ++ [c]
             /\ log (world s') = log (world s) ++ ls
             /\ (length ls <= 1)%nat.
Proof.
  simpl. rewrite guarded_call_run. simpl.
  destruct (fst (sdk_call c (device (world s)))) as [e|];
    [destruct (is_EvaCalorError e)|].
  - eexists. repeat split. simpl. lia.
  - exists []. rewrite app_nil_r. repeat split. simpl. lia.
  - exists []. rewrite app_nil_r. repeat split. simpl. lia.
Qed.

Lemma run_op_trace (o : Op) (s : State) :
  exists cs ls,
    calls (world (run_op o s)) = calls (world s) ++ cs
    /\ log (world (run_op o s)) = log (world s) ++ ls
    /\ (length cs <= 1)%nat /\ (length ls <= length cs)%nat.
Proof.
  assert (Hnothing : exists cs ls : list _,
            calls (world s) = calls (world s) ++ cs
            /\ log (world s) = log (world s) ++ ls
            /\ (length cs <= 1)%nat /\ (length ls <= length cs)%nat).
  { exists [], []. rewrite !app_nil_r. simpl. repeat split; lia. }
  assert (Hguarded : forall c fmt,
            let s' :=
              snd (try_except (vendor c)
                     [ (is_EvaCalorError,
                        fun err => _LOGGER_error fmt [ArgErr err]) ] s) in
            exists cs ls,
              calls (world s') = calls (world s) ++ cs
              /\ log (world s') = log (world s) ++ ls
              /\ (length cs <= 1)%nat /\ (length ls <= length cs)%nat).
  { intros c fmt. destruct (guarded_call_trace c fmt s) as (ls & Hc & Hl & Hn).
    exists [c], ls. simpl. repeat split; auto. }
  destruct o; simpl.
  - exists [CallUpdate].
    update_paths s;
      first [ exists []; rewrite app_nil_r; simpl; repeat split; lia
            | eexists; simpl; repeat split; simpl; lia ].
  - apply Hguarded.
  - apply Hguarded.
  - destruct (kwargs_get kwargs ATTR_TEMPERATURE) eqn:Ht;
      [ unfold set_temperature; rewrite Ht; exact Hnothing
      | erewrite set_temperature_run by (rewrite Ht; reflexivity);
        apply Hguarded .. ].
  - destruct fan_mode0;
      [ exact Hnothing
      | rewrite set_fan_mode_run by discriminate; apply Hguarded .. ].
  - unfold set_hvac_mode.
    destruct (py_eq hvac_mode0 HVAC_MODE_OFF); [apply Hguarded |].
    destruct (py_eq hvac_mode0 HVAC_MODE_HEAT); [apply Hguarded |].
    exact Hnothing.
Qed.

(** X10.  The two traces are append-only.  Over any sequence of polls
    and commands the calls made to the handle and the records logged only
    grow at the end; there is at most one call per operation and at most
    one record per call, so nothing is ever logged without the SDK having
    been asked. *)
Theorem traces_append_only (ops : list Op) (s : State) :
  exists cs ls,
    calls (world (run_ops ops s)) = calls (world s) ++ cs
    /\ log (world (run_ops ops s)) = log (world s) ++ ls
    /\ (length cs <= length ops)%nat /\ (length ls <= length cs)%nat.
Proof.
  revert s. induction ops as [| o rest IH]; intros s.
  - exists [], []. rewrite !app_nil_r. simpl. repeat split; lia.
  - unfold run_ops in *. simpl.
    destruct (IH (run_op o s)) as (cs2 & ls2 & Hc2 & Hl2 & Hn2 & Hm2).
    destruct (run_op_trace o s) as (cs1 & ls1 & Hc1 & Hl1 & Hn1 & Hm1).
    exists (cs1 ++ cs2), (ls1 ++ ls2).
    rewrite Hc2, Hl2, Hc1, Hl1, <- !app_assoc, !length_app.
    repeat split; lia.
Qed.

Lemma guarded_call_raise (c : VendorCall) (fmt : string) (s : State)
    (e : Exn) :
  let run :=
    try_except (vendor c)
      [ (is_EvaCalorError, fun err => _LOGGER_error fmt [ArgErr err]) ] s in
  fst run = Raise e
  <-> fst (sdk_call c (device (world s))) = Some e
      /\ is_EvaCalorError e = false.
Proof.
  simpl. rewrite guarded_call_run. simpl.
  destruct (fst (sdk_call c (device (world s)))) as [e'|];
    [destruct (is_EvaCalorError e') eqn:Hclass|]; simpl; split.
  - intros Hr. discriminate Hr.
  - intros [Hc Hv]. injection Hc as ->. congruence.
  - intros Hr. injection Hr as ->. now split.
  - intros [Hc _]. now injection Hc as ->.
  - intros Hr. discriminate Hr.
  - intros [Hc _]. discriminate Hc.
Qed.

(** X11.  What escapes a command.  [turn_on], [turn_off], a
    [set_temperature] that doubles to [raw] and a [set_fan_mode] with a
    mode raise [e] exactly when the SDK answered their one call by raising
    [e] and [e] is not a vendor error; built-in and third-party
    exceptions are not swallowed. *)
Theorem commands_reraise_other_exceptions (kwargs : gmap string PyVal)
    (raw mode : PyVal) (s : State) (e : Exn) :
  py_mul2 (kwargs_get kwargs ATTR_TEMPERATURE) = Return raw ->
  mode <> PNone ->
  (fst (turn_on s) = Raise e
   <-> fst (sdk_call CallTurnOn (device (world s))) = Some e
       /\ is_EvaCalorError e = false)
  /\ (fst (turn_off s) = Raise e
      <-> fst (sdk_call CallTurnOff (device (world s))) = Some e
          /\ is_EvaCalorError e = false)
  /\ (fst (set_temperature kwargs s) = Raise e
      <-> fst (sdk_call (SetAirTemperature raw) (device (world s))) = Some e
          /\ is_EvaCalorError e = false)
  /\ (fst (set_fan_mode mode s) = Raise e
      <-> fst (sdk_call (SetPower mode) (device (world s))) = Some e
          /\ is_EvaCalorError e = false).
Proof.
  intros Hraw Hmode.
  rewrite (set_temperature_run kwargs s raw Hraw).
  rewrite (set_fan_mode_run mode s Hmode).
  split; [| split; [| split]]; apply guarded_call_raise.
Qed.


End Commands.


(** ** Further properties of setup *)

Section Setup.

Context {K : Constants} {V : Pyevacalor}.

(** X13.  A config entry that lacks a credential makes setup raise
    [KeyError] for the first missing one, in the order email, password,
    uuid; the host is left as it was (nothing registered, nothing
    logged), and the outcome does not depend on the SDK. *)
Theorem setup_missing_credential (entry_data : gmap string PyVal)
    (h : Host) :
  (entry_data !! CONF_EMAIL = None ->
     async_setup_entry entry_data h = (Raise (KeyError CONF_EMAIL), h))
  /\ (is_Some (entry_data !! CONF_EMAIL) ->
      entry_data !! CONF_PASSWORD = None ->
      async_setup_entry entry_data h = (Raise (KeyError CONF_PASSWORD), h))
  /\ (is_Some (entry_data !! CONF_EMAIL) ->
      is_Some (entry_data !! CONF_PASSWORD) ->
      entry_data !! CONF_UUID = None ->
      async_setup_entry entry_data h = (Raise (KeyError CONF_UUID), h)).
Proof.
  unfold async_setup_entry, subscript. unfold_monad.
  split; [| split].
  - intros ->. reflexivity.
  - intros [email ->] ->. reflexivity.
  - intros [email ->] [password ->] ->. reflexivity.
Qed.

(** X14.  What escapes setup.  With the credentials present, an
    account without devices makes [eva.devices[0]] raise [IndexError],
    and an exception of the SDK that is not a vendor error is not caught
    either; both propagate to the host with nothing registered and
    nothing logged. *)
Theorem setup_escaping_exceptions (entry_data : gmap string PyVal)
    (h : Host) (email password gen_uuid : PyVal) :
  entry_data !! CONF_EMAIL = Some email ->
  entry_data !! CONF_PASSWORD = Some password ->
  entry_data !! CONF_UUID = Some gen_uuid ->
  (forall eva,
     evacalor email password gen_uuid = Return eva ->
     devices eva = Return [] ->
     async_setup_entry entry_data h = (Raise IndexError, h))
  /\ (forall e, is_EvaCalorError e = false ->
        evacalor email password gen_uuid = Raise e
        \/ (exists eva, evacalor email password gen_uuid = Return eva
              /\ devices eva = Raise e) ->
        async_setup_entry entry_data h = (Raise e, h)).
Proof.
  intros Hemail Hpassword Huuid.
  unfold async_setup_entry, subscript, try_except. unfold_monad.
  rewrite Hemail, Hpassword, Huuid. simpl. split.
  - intros eva -> ->. reflexivity.
  - intros e Hother [-> | (eva & -> & Hdev)]; simpl.
    + destruct e; try discriminate Hother; reflexivity.
    + rewrite Hdev. destruct e; try discriminate Hother; reflexivity.
Qed.

(** X15.  A setup that fails on a vendor error logs exactly one record
    and touches nothing else of the host: the fixed message for wrong
    credentials or for a failed connection, without the error's text, or
    the generic message with the error as its argument. *)
Theorem setup_failure_logged_once (entry_data : gmap string PyVal)
    (h : Host) (email password gen_uuid : PyVal) (e : Exn) :
  entry_data !! CONF_EMAIL = Some email ->
  entry_data !! CONF_PASSWORD = Some password ->
  entry_data !! CONF_UUID = Some gen_uuid ->
  is_EvaCalorError e = true ->
  evacalor email password gen_uuid = Raise e
  \/ (exists eva, evacalor email password gen_uuid = Return eva
        /\ devices eva = Raise e) ->
  snd (async_setup_entry entry_data h)
  = mkHost (added h) (host_log h ++ [setup_error_record e]).
Proof.
  intros Hemail Hpassword Huuid Hvendor Hraise.
  unfold async_setup_entry, subscript, try_except. unfold_monad.
  rewrite Hemail, Hpassword, Huuid. simpl.
  destruct Hraise as [-> | (eva & -> & Hdev)]; simpl.
  - destruct e; try discriminate Hvendor; reflexivity.
  - rewrite Hdev. destruct e; try discriminate Hvendor; reflexivity.
Qed.

End Setup.


(** ** The further properties on the sample instances *)

(** The stove's readings all convert, so its poll returns [True]; an
    offline stove's poll returns [False]. *)
Lemma update_return_value_samples :
  fst (update (B:=sample_builtins) (V:=stove) (fresh sample_device))
    = Return true
  /\ fst (update (B:=sample_builtins)
            (V:=failing (ConnectionError "explanation"))
            (fresh sample_device))
     = Return false.
Proof.
  split.
  - apply (update_return_value (B:=sample_builtins) (V:=stove)
             (fresh sample_device)).
    repeat split; eexists; reflexivity.
  - apply (update_return_value (B:=sample_builtins)
             (V:=failing (ConnectionError "explanation"))
             (fresh sample_device)).
    exists (ConnectionError "explanation"). split; reflexivity.
Defined.

(** A reading too large for a float: [float(10**400)] raises
    [OverflowError] out of the poll. *)
Example update_raises_on_huge_reading :
  fst (update (B:=sample_builtins) (V:=stove)
         (fresh (mkDevice (PInt 0) (PStr "OFF") (PInt 20) (PInt 42)
                   (PInt (10 ^ 400)) (PInt 0) (PInt 3) (PStr "Stove")
                   (PStr "Eva") (PStr "AABBCCDDEEFF") (PInt 7) (PInt 40))))
  = Raise OverflowError.
Proof. vm_compute. reflexivity. Qed.

(** The first poll of the stove and the one after it leave the same
    snapshot, although they started from different ones. *)
Lemma update_overwrites_on_stove :
  let s := fresh sample_device in
  let s' := snd (update (B:=sample_builtins) (V:=stove) s) in
  let t' := snd (update (B:=sample_builtins) (V:=stove) s') in
  self s <> self s' /\ self s' = self t'.
Proof.
  intros s s' t'. split.
  - vm_compute. discriminate.
  - apply (update_overwrites_wholesale
             (B:=sample_builtins) (V:=stove) s s' s' t');
      vm_compute; reflexivity.
Defined.

(** A set point that is not a number: the stove stores the repeated
    string, the next poll raises [ValueError], and the modes the entity
    reports are those of the poll before. *)
Lemma update_raise_on_stove :
  let polled :=
    snd (update (B:=sample_builtins) (V:=stove)
           (snd (turn_on (V:=stove) (fresh sample_device)))) in
  let s :=
    snd (set_temperature (K:=sample_constants) (V:=stove)
           {[ "temperature" := PStr "x" ]} polled) in
  fst (update (B:=sample_builtins) (V:=stove) s) = Raise ValueError
  /\ hvac_mode (self (snd (update (B:=sample_builtins) (V:=stove) s)))
     = PStr "heat"
  /\ fan_mode (K:=sample_constants)
       (self (snd (update (B:=sample_builtins) (V:=stove) s)))
     = PInt 3.
Proof.
  intros polled s. split; [vm_compute; reflexivity |].
  apply (update_raise_keeps_modes
           (B:=sample_builtins) (K:=sample_constants) (V:=stove)
           s ValueError).
  vm_compute. reflexivity.
Defined.

(** The stove after a poll, a botched set point and a poll that raised. *)
Lemma snapshot_types_on_stove :
  let s :=
    run_ops (B:=sample_builtins) (K:=sample_constants) (V:=stove)
      [OpUpdate; OpSetTemperature {[ "temperature" := PStr "x" ]}; OpUpdate]
      (fresh sample_device) in
  none_or_float (current_temperature (self s)) = true
  /\ none_or_float (target_temperature (self s)) = true
  /\ none_or_float (_smoke_temperature (self s)) = true
  /\ none_or_int (_real_power (self s)) = true
  /\ none_or_int (_current_power (self s)) = true.
Proof.
  intros s.
  apply (snapshot_types_invariant
           (B:=sample_builtins) (K:=sample_constants) (V:=stove) s).
  exists sample_device,
    [OpUpdate; OpSetTemperature {[ "temperature" := PStr "x" ]}; OpUpdate].
  reflexivity.
Defined.

(** Polls and commands on the stove, none of which raises: the snapshot
    is the image of the handle as the second poll found it, turned on. *)
Lemma snapshot_from_one_poll_on_stove :
  let ops := [OpUpdate; OpTurnOn; OpUpdate] in
  let a :=
    self (run_ops (B:=sample_builtins) (K:=sample_constants) (V:=stove)
            ops (fresh sample_device)) in
  (never_succeeded (B:=sample_builtins) (K:=sample_constants) (V:=stove)
     ops (fresh sample_device) = true
   /\ a = __init__ sample_device)
  \/ (exists before after,
        ops = before ++ OpUpdate :: after
        /\ let s :=
             run_ops (B:=sample_builtins) (K:=sample_constants) (V:=stove)
               before (fresh sample_device) in
           fst (update (B:=sample_builtins) (V:=stove) s) = Return true
           /\ never_succeeded (B:=sample_builtins) (K:=sample_constants)
                (V:=stove) after
                (snd (update (B:=sample_builtins) (V:=stove) s)) = true
           /\ image_of (B:=sample_builtins) a
                (snd (sdk_call (Pyevacalor:=stove) CallUpdate
                        (device (world s))))).
Proof.
  apply (snapshot_from_one_poll
           (B:=sample_builtins) (K:=sample_constants) (V:=stove)
           sample_device [OpUpdate; OpTurnOn; OpUpdate]).
  vm_compute. reflexivity.
Defined.

(** With string levels, choosing level "3" and polling it back still
    reports level "1". *)
Lemma string_levels_on_stove :
  let s :=
    run_ops (B:=digit_builtins) (K:=string_levels) (V:=stove)
      [OpSetFanMode (PStr "3"); OpUpdate] (fresh sample_device) in
  set_power (device (world s)) = PStr "3"
  /\ fan_mode (K:=string_levels) (self s) = PStr "1".
Proof.
  intros s. split; [vm_compute; reflexivity |].
  apply (string_levels_never_match
           (B:=digit_builtins) (K:=string_levels) (V:=stove) s).
  - exists sample_device, [OpSetFanMode (PStr "3"); OpUpdate]. reflexivity.
  - intros v Hin. simpl in Hin.
    destruct Hin as [<- | [<- | [<- | [<- | [<- | []]]]]]; eexists;
      reflexivity.
Defined.


(** A time-out of the HTTP library is not a vendor error: it escapes. *)
Lemma commands_reraise_samples :
  let V := failing (Exception "Timeout") in
  fst (turn_on (V:=V) (fresh sample_device)) = Raise (Exception "Timeout")
  /\ fst (set_temperature (K:=sample_constants) (V:=V)
            {[ "temperature" := PInt 21 ]} (fresh sample_device))
     = Raise (Exception "Timeout").
Proof.
  intros V.
  destruct (commands_reraise_other_exceptions
              (K:=sample_constants) (V:=V)
              {[ "temperature" := PInt 21 ]} (PInt 42) (PInt 3)
              (fresh sample_device) (Exception "Timeout"))
    as (Hon & _ & Htemp & _).
  - vm_compute. reflexivity.
  - discriminate.
  - split; [apply Hon | apply Htemp]; split; reflexivity.
Defined.


(** An entry without a password. *)
Lemma setup_missing_password :
  async_setup_entry (K:=sample_constants) (V:=stove)
    (delete "password" sample_entry) sample_host
  = (Raise (KeyError "password"), sample_host).
Proof.
  destruct (setup_missing_credential
              (K:=sample_constants) (V:=stove)
              (delete "password" sample_entry) sample_host)
    as (_ & Hpassword & _).
  apply Hpassword.
  - exists (PStr "test-username"). vm_compute. reflexivity.
  - vm_compute. reflexivity.
Defined.

(** An account without devices, and an SDK that times out. *)
Lemma setup_escaping_samples :
  async_setup_entry (K:=sample_constants) (V:=no_devices)
    sample_entry sample_host
  = (Raise IndexError, sample_host)
  /\ async_setup_entry (K:=sample_constants)
       (V:=failing (Exception "Timeout")) sample_entry sample_host
     = (Raise (Exception "Timeout"), sample_host).
Proof.
  split.
  - destruct (setup_escaping_exceptions
                (K:=sample_constants) (V:=no_devices)
                sample_entry sample_host (PStr "test-username")
                (PStr "test-password") (PStr "AABBCCDDEEFF"))
      as (Hempty & _);
      [vm_compute; reflexivity | vm_compute; reflexivity
      | vm_compute; reflexivity |].
    apply (Hempty (mkEva (Return []))); reflexivity.
  - destruct (setup_escaping_exceptions
                (K:=sample_constants) (V:=failing (Exception "Timeout"))
                sample_entry sample_host (PStr "test-username")
                (PStr "test-password") (PStr "AABBCCDDEEFF"))
      as (_ & Hother);
      [vm_compute; reflexivity | vm_compute; reflexivity
      | vm_compute; reflexivity |].
    apply Hother; [reflexivity | left; reflexivity].
Defined.

(** Setup against an unreachable cloud. *)
Lemma setup_failure_logged_sample :
  snd (async_setup_entry (K:=sample_constants)
         (V:=failing (ConnectionError "explanation"))
         sample_entry sample_host)
  = mkHost [] [mkLog "Connection to Eva Calor not possible" []].
Proof.
  apply (setup_failure_logged_once
           (K:=sample_constants)
           (V:=failing (ConnectionError "explanation"))
           sample_entry sample_host (PStr "test-username")
           (PStr "test-password") (PStr "AABBCCDDEEFF")
           (ConnectionError "explanation")).
  - vm_compute. reflexivity.
  - vm_compute. reflexivity.
  - vm_compute. reflexivity.
  - reflexivity.
  - left. reflexivity.
Defined.
